(** * AnyDown: the download-and-delivery pipeline of the Telegram bot

    A shallow embedding of [AnyDown.py]: the URL classifier
    [is_supported_url] and the handler [download_and_send_video], with the
    Python runtime pieces they rely on (exceptions, [try]/[except], the
    [with tempfile.TemporaryDirectory()] block, [dict.get], f-strings)
    written out as explicit state and error passing. *)

From stdpp Require Import gmap strings list fin_maps pretty.
From Stdlib Require Import ZArith Ascii String Lia.

Local Open Scope string_scope.
Local Open Scope Z_scope.

(** ** Python values and exceptions *)

(** The values that reach the code: [str], [int] and [None].  A [str] is
    kept as the bytes of its UTF-8 encoding. *)
Inductive PyVal : Type :=
| VNone
| VStr (s : string)
| VInt (z : Z).

(** Exceptions, by the classes the handlers tell apart:
    [yt_dlp.utils.DownloadError], any other subclass of [Exception]
    (with its class name), and the [BaseException]s outside [Exception]
    (KeyboardInterrupt, CancelledError, ...).  The string is [str(e)]. *)
Inductive exn : Type :=
| DownloadError (msg : string)
| PyException (cls msg : string)
| PyBaseException (cls msg : string).

Definition str_of_exn (e : exn) : string :=
  match e with
  | DownloadError m => m
  | PyException _ m => m
  | PyBaseException _ m => m
  end.

(** [isinstance(e, Exception)] *)
Definition is_Exception (e : exn) : bool :=
  match e with
  | PyBaseException _ _ => false
  | _ => true
  end.

(** [isinstance(e, yt_dlp.utils.DownloadError)] *)
Definition is_DownloadError (e : exn) : bool :=
  match e with
  | DownloadError _ => true
  | _ => false
  end.

(** The outcome of evaluating an expression. *)
Inductive Result (A : Type) : Type :=
| Ok (a : A)
| Raise (e : exn).
Arguments Ok {A} a.
Arguments Raise {A} e.

Definition rbind {A B} (r : Result A) (k : A -> Result B) : Result B :=
  match r with
  | Ok a => k a
  | Raise e => Raise e
  end.

(** [try: body except: handler] with a bare [except], which catches every
    exception. *)
Definition try_except_all {A} (body : Result A) (handler : Result A) : Result A :=
  match body with
  | Ok a => Ok a
  | Raise _ => handler
  end.

(** ** Strings *)

Definition nl : string := String "010"%char EmptyString.

(** [s.startswith(p)] *)
Fixpoint startswith (s p : string) {struct p} : bool :=
  match p, s with
  | EmptyString, _ => true
  | String c p', String d s' => if Ascii.eqb c d then startswith s' p' else false
  | String _ _, EmptyString => false
  end.

(** [needle in hay] on strings: [needle] starts at some position of [hay]. *)
Fixpoint contains (needle hay : string) : bool :=
  startswith hay needle ||
  match hay with
  | EmptyString => false
  | String _ hay' => contains needle hay'
  end.

(** [s.endswith(suf)]: some tail of [s] is [suf]. *)
Fixpoint endswith (s suf : string) : bool :=
  String.eqb s suf ||
  match s with
  | EmptyString => false
  | String _ s' => endswith s' suf
  end.

(** [str(v)], as an f-string field formats it. *)
Definition py_str (v : PyVal) : string :=
  match v with
  | VNone => "None"
  | VStr s => s
  | VInt z => pretty z
  end.

(** [v // d] for an [int] divisor: floor division on [int], a [TypeError]
    on the other values (a zero divisor does not occur in the code). *)
Definition floordiv (v : PyVal) (d : Z) : Result PyVal :=
  match v with
  | VInt z => Ok (VInt (z `div` d))
  | VStr _ => Raise (PyException "TypeError" "unsupported operand type(s) for //: 'str' and 'int'")
  | VNone => Raise (PyException "TypeError" "unsupported operand type(s) for //: 'NoneType' and 'int'")
  end.

(** [os.path.join(d, name)] for a relative [name]. *)
Definition path_join (d name : string) : string := d ++ "/" ++ name.

(** ** The URL classifier *)

Definition SUPPORTED_DOMAINS : list string :=
  [ "youtube.com";
    "youtu.be";
    "facebook.com";
    "fb.watch";
    "instagram.com";
    "twitter.com";
    "x.com" ].

(** [str.lower] restricted to ASCII letters; used to run the classifier on
    concrete ASCII inputs. *)
Definition ascii_lower_char (c : ascii) : ascii :=
  let n := nat_of_ascii c in
  if ((65 <=? n) && (n <=? 90))%nat then ascii_of_nat (n + 32) else c.

Fixpoint ascii_lower (s : string) : string :=
  match s with
  | EmptyString => EmptyString
  | String c s' => String (ascii_lower_char c) (ascii_lower s')
  end.

Section Classifier.

(** [str.lower] of the Python runtime: total on [str], and left abstract
    because Unicode case mapping is not part of the program. *)
Variable lower : string -> string.

(** [url.lower()]: only a [str] has the method. *)
Definition call_lower (url : PyVal) : Result string :=
  match url with
  | VStr s => Ok (lower s)
  | VNone => Raise (PyException "AttributeError" "'NoneType' object has no attribute 'lower'")
  | VInt _ => Raise (PyException "AttributeError" "'int' object has no attribute 'lower'")
  end.

(** [any(domain in url.lower() for domain in SUPPORTED_DOMAINS)] *)
Fixpoint any_domain_in (url : PyVal) (domains : list string) : Result bool :=
  match domains with
  | [] => Ok false
  | domain :: rest =>
      rbind (call_lower url) (fun s =>
        if contains domain s then Ok true else any_domain_in url rest)
  end.

Definition is_supported_url (url : PyVal) : Result bool :=
  try_except_all (any_domain_in url SUPPORTED_DOMAINS) (Ok false).

End Classifier.

(** ** The world the handler runs in *)

(** A file of a directory listing: its name and its size in bytes. *)
Abbreviation File := (string * Z)%type (only parsing).

(** What the chat shows. *)
Inductive Sent : Type :=
| SText (text : string)
| SVideo (path caption : string)
| SDocument (path caption : string).

(** The calls the handler issues, in order.  A keyword argument that the
    call site does not pass is [None]. *)
Inductive Event : Type :=
| EMkdtemp (d : string)
| ERmtree (d : string)
| EChatAction (action : string)
| EExtractInfo (url : string)
| EDownload (url : string)
| EReplyText (text : string)
| EReplyVideo (video caption : string) (supports_streaming : bool)
              (read_timeout write_timeout : option Z)
| EReplyDocument (document caption : string)
                 (read_timeout write_timeout : option Z)
| EDelete (message_id : nat)
| ELogError (text : string).

(** The places where the handler calls the messaging transport, by line of
    [AnyDown.py]. *)
Inductive Site : Type :=
| reply_unsupported       (* 75 *)
| action_typing           (* 88 *)
| reply_processing        (* 92 *)
| action_upload           (* 108 *)
| send_video              (* 111 *)
| send_document           (* 120 *)
| delete_processing       (* 126 *)
| reply_download_failed   (* 131 *)
| reply_unexpected        (* 135 *)
| delete_in_handler.      (* 139 *)

(** The collaborators of one run: what creating the temporary directory
    gives, what the extraction backend answers and writes, and which
    transport calls fail.  Every call site runs at most once per run, so
    one outcome per site describes any behaviour of the transport. *)
Record Env : Type := {
  mkdtemp : Result string;
  extract_info : string -> Result (gmap string PyVal);
  download : string -> list File * Result unit;
  transport : Site -> option exn
}.

Record State : Type := {
  fs : gmap string (list File);       (* directories and their listings *)
  chat : list (nat * Sent);           (* messages visible in the chat *)
  next_id : nat;                      (* id of the next message *)
  trace : list Event;                 (* calls issued so far *)
  processing_msg : option nat         (* the local variable of the handler *)
}.

Definition initial (fs0 : gmap string (list File)) : State :=
  {| fs := fs0; chat := []; next_id := 0%nat; trace := []; processing_msg := None |}.

Definition set_fs (f : gmap string (list File) -> gmap string (list File)) (s : State) : State :=
  {| fs := f (fs s); chat := chat s; next_id := next_id s; trace := trace s;
     processing_msg := processing_msg s |}.

Definition set_chat (f : list (nat * Sent) -> list (nat * Sent)) (s : State) : State :=
  {| fs := fs s; chat := f (chat s); next_id := next_id s; trace := trace s;
     processing_msg := processing_msg s |}.

Definition record (ev : Event) (s : State) : State :=
  {| fs := fs s; chat := chat s; next_id := next_id s; trace := (trace s ++ [ev])%list;
     processing_msg := processing_msg s |}.

Definition post (m : Sent) (s : State) : State :=
  {| fs := fs s; chat := (chat s ++ [(next_id s, m)])%list; next_id := S (next_id s);
     trace := trace s; processing_msg := processing_msg s |}.

Definition assign_processing_msg (v : option nat) (s : State) : State :=
  {| fs := fs s; chat := chat s; next_id := next_id s; trace := trace s;
     processing_msg := v |}.

(** ** State and exception passing *)

Definition M (A : Type) : Type := State -> State * Result A.

Definition ret {A} (a : A) : M A := fun s => (s, Ok a).

Definition raise {A} (e : exn) : M A := fun s => (s, Raise e).

Definition bind {A B} (m : M A) (k : A -> M B) : M B :=
  fun s =>
    match m s with
    | (s', Ok a) => k a s'
    | (s', Raise e) => (s', Raise e)
    end.

Definition lift {A} (r : Result A) : M A := fun s => (s, r).

Definition modify (f : State -> State) : M unit := fun s => (f s, Ok tt).

Definition gets {A} (f : State -> A) : M A := fun s => (s, Ok (f s)).

Declare Scope py_scope.
Delimit Scope py_scope with py.
Notation "x <- c ;; k" := (bind c (fun x => k))
  (at level 100, c at next level, right associativity) : py_scope.
Notation "c ;;; k" := (bind c (fun _ => k))
  (at level 100, right associativity) : py_scope.

(** [try: body / except yt_dlp.utils.DownloadError as e: h1 / except
    Exception as e: h2].  An exception of a handler is not caught by the
    other one, and a [BaseException] outside [Exception] goes through. *)
Definition try_except {A} (body : M A) (h_download : exn -> M A) (h_exception : exn -> M A) : M A :=
  fun s =>
    match body s with
    | (s', Ok a) => (s', Ok a)
    | (s', Raise e) =>
        if is_DownloadError e then h_download e s'
        else if is_Exception e then h_exception e s'
        else (s', Raise e)
    end.

(** [try: body / except: pass] *)
Definition try_pass (body : M unit) : M unit :=
  fun s =>
    match body s with
    | (s', Ok a) => (s', Ok a)
    | (s', Raise _) => (s', Ok tt)
    end.

(** ** Reading the file system *)

(** The size of the entry called [name], as [os.path.getsize] finds it. *)
Fixpoint lookup_file (name : string) (files : list File) : option Z :=
  match files with
  | [] => None
  | (n, size) :: rest => if String.eqb n name then Some size else lookup_file name rest
  end.

(** [os.listdir(d)]: the names of the entries of [d], in listing order. *)
Definition listdir (d : string) : M (list string) :=
  fun s =>
    match fs s !! d with
    | Some files => (s, Ok (map fst files))
    | None => (s, Raise (PyException "FileNotFoundError" d))
    end.

(** [os.path.getsize(os.path.join(d, name))] *)
Definition getsize (d name : string) : M Z :=
  fun s =>
    match fs s !! d with
    | Some files =>
        match lookup_file name files with
        | Some size => (s, Ok size)
        | None => (s, Raise (PyException "FileNotFoundError" (path_join d name)))
        end
    | None => (s, Raise (PyException "FileNotFoundError" (path_join d name)))
    end.

(** [info.get(key, default)] *)
Definition dict_get (info : gmap string PyVal) (key : string) (dflt : PyVal) : PyVal :=
  match info !! key with
  | Some v => v
  | None => dflt
  end.

(** The text of the progress message (lines 93-94). *)
Definition processing_text (info : gmap string PyVal) : Result string :=
  let title := dict_get info "title" (VStr "video") in
  rbind (floordiv (dict_get info "duration" (VInt 0)) 60) (fun minutes =>
    Ok ("⏳ Downloading: " ++ py_str title ++ nl ++
        "⏱ Duration: " ++ py_str minutes ++ " minutes")).

(** The caption of the video (line 113). *)
Definition video_caption (info : gmap string PyVal) : string :=
  "✅ " ++ py_str (dict_get info "title" (VStr "Downloaded Video")).

Definition document_caption : string :=
  "📁 File too large for streaming, sent as document".

Definition unsupported_text : string :=
  "❌ Unsupported platform. Send links from YouTube/Facebook/Instagram/Twitter only.".

Definition download_failed_text : string :=
  "⚠️ Couldn't download this video. It might be private or age-restricted.".

Definition unexpected_text : string :=
  "❌ An unexpected error occurred. Please try again later.".

(** [2000 * 1024 * 1024], the limit of line 109. *)
Definition size_limit : Z := 2000 * 1024 * 1024.

(** ** The handler *)

Section Handler.

Variable lower : string -> string.
Variable env : Env.

(** A call of the transport at [site]: it is recorded, then fails as
    [env] says or has its effect. *)
Definition transport_call {A} (site : Site) (ev : Event) (effect : M A) : M A :=
  fun s =>
    match transport env site with
    | Some e => (record ev s, Raise e)
    | None => effect (record ev s)
    end.

(** [message.reply_text(text)], returning the message sent. *)
Definition reply_text (site : Site) (text : string) : M nat :=
  transport_call site (EReplyText text)
    (fun s => (post (SText text) s, Ok (next_id s))).

(** [message.reply_chat_action(action=action)] *)
Definition reply_chat_action (site : Site) (action : string) : M unit :=
  transport_call site (EChatAction action) (ret tt).

(** [message.reply_video(video=..., caption=..., supports_streaming=True,
    read_timeout=60, write_timeout=60)] *)
Definition reply_video (path caption : string) : M unit :=
  transport_call send_video (EReplyVideo path caption true (Some 60) (Some 60))
    (modify (post (SVideo path caption))).

(** [message.reply_document(document=..., caption=...)] *)
Definition reply_document (path caption : string) : M unit :=
  transport_call send_document (EReplyDocument path caption None None)
    (modify (post (SDocument path caption))).

(** [msg.delete()] *)
Definition delete_message (site : Site) (msg : nat) : M unit :=
  transport_call site (EDelete msg)
    (modify (set_chat (List.filter (fun m => negb (Nat.eqb (fst m) msg))))).

(** [logger.error(text)] *)
Definition log_error (text : string) : M unit :=
  modify (record (ELogError text)).

(** [ydl.extract_info(url, download=False)] *)
Definition ydl_extract_info (url : string) : M (gmap string PyVal) :=
  fun s => (record (EExtractInfo url) s, extract_info env url).

(** [ydl.download([url])], for the [ydl] whose output template lies in
    [tmp_dir]: the backend writes its files there, then returns or
    raises. *)
Definition ydl_download (tmp_dir url : string) : M unit :=
  fun s =>
    let written := fst (download env url) in
    let s1 := record (EDownload url) s in
    (set_fs (fun m => <[tmp_dir := (default [] (m !! tmp_dir) ++ written)%list]> m) s1,
     snd (download env url)).

(** [with tempfile.TemporaryDirectory() as tmp_dir: body]: the directory
    is created empty, and removed with its contents when the block is
    left, whether [body] returns or raises; the removal is the context
    manager's and is taken to succeed. *)
Definition with_TemporaryDirectory {A} (body : string -> M A) : M A :=
  fun s =>
    match mkdtemp env with
    | Raise e => (s, Raise e)
    | Ok tmp_dir =>
        let s1 := set_fs (fun m => <[tmp_dir := []]> m) (record (EMkdtemp tmp_dir) s) in
        match body tmp_dir s1 with
        | (s2, r) => (set_fs (delete tmp_dir) (record (ERmtree tmp_dir) s2), r)
        end
    end.

(** Lines 125-126 and 137-141: [if processing_msg: ...] *)
Definition if_processing_msg (k : nat -> M unit) : M unit :=
  (pm <- gets processing_msg ;;
   match pm with
   | Some msg => k msg
   | None => ret tt
   end)%py.

(** Lines 100-126: find the downloaded file, send it, and delete the
    progress message.  The file that was just listed is there to be opened
    (lines 110 and 119). *)
Definition send_downloaded (info : gmap string PyVal) (tmp_dir : string) : M unit :=
  (names <- listdir tmp_dir ;;
   match List.filter (fun f => endswith f ".mp4") names with
   | [] => raise (PyException "Exception" "No video file found after download")
   | first :: _ =>
       let downloaded_path := path_join tmp_dir first in
       reply_chat_action action_upload "upload_video" ;;;
       size <- getsize tmp_dir first ;;
       (if size <? size_limit
        then reply_video downloaded_path (video_caption info)
        else reply_document downloaded_path document_caption) ;;;
       if_processing_msg (delete_message delete_processing)
   end)%py.

(** Lines 81-126, the body of the [with] block.  Building the downloader
    (lines 82-85) only fixes its output template inside [tmp_dir], which
    [ydl_download] takes as its argument. *)
Definition with_body (url tmp_dir : string) : M unit :=
  (reply_chat_action action_typing "typing" ;;;
   info <- ydl_extract_info url ;;
   text <- lift (processing_text info) ;;
   msg <- reply_text reply_processing text ;;
   modify (assign_processing_msg (Some msg)) ;;;
   ydl_download tmp_dir url ;;;
   send_downloaded info tmp_dir)%py.

(** Lines 128-131 *)
Definition on_DownloadError (e : exn) : M unit :=
  (log_error ("❌ Download failed: " ++ str_of_exn e) ;;;
   _ <- reply_text reply_download_failed download_failed_text ;;
   ret tt)%py.

(** Lines 133-141 *)
Definition on_Exception (e : exn) : M unit :=
  (log_error ("Unexpected error: " ++ str_of_exn e) ;;;
   _ <- reply_text reply_unexpected unexpected_text ;;
   if_processing_msg (fun msg => try_pass (delete_message delete_in_handler msg)))%py.

Definition download_and_send_video (url : string) : M unit :=
  (supported <- lift (is_supported_url lower (VStr url)) ;;
   if negb supported then
     _ <- reply_text reply_unsupported unsupported_text ;;
     ret tt
   else
     modify (assign_processing_msg None) ;;;
     try_except
       (with_TemporaryDirectory (with_body url))
       on_DownloadError
       on_Exception)%py.

(** One run of the handler on a message with text [url], from a file
    system [fs0]. *)
Definition run (url : string) (fs0 : gmap string (list File)) : State * Result unit :=
  download_and_send_video url (initial fs0).

End Handler.

(** * Vocabulary of the properties *)

(** [respects R m]: every run of [m] takes a state to an [R]-related one,
    whether it returns or raises.  For a preorder [R] this is kept by
    sequencing and by the handlers. *)
Definition respects (R : State -> State -> Prop) {A} (m : M A) : Prop :=
  forall s, R s (m s).1.

(** The file system is the same. *)
Definition same_fs (s s' : State) : Prop := fs s' = fs s.

(** The trace has grown by events that satisfy [P]. *)
Definition grows_by (P : Event -> Prop) (s s' : State) : Prop :=
  exists evs, trace s' = (trace s ++ evs)%list /\ Forall P evs.

(** The calls made inside the [with] block. *)
Definition is_body_event (ev : Event) : Prop :=
  match ev with
  | EMkdtemp _ | ERmtree _ | ELogError _ => False
  | _ => True
  end.

(** The calls made by the two [except] clauses. *)
Definition is_handler_event (ev : Event) : Prop :=
  match ev with
  | ELogError _ | EReplyText _ | EDelete _ => True
  | _ => False
  end.

(** A call that hands a file to the chat. *)
Definition is_delivery (ev : Event) : Prop :=
  match ev with
  | EReplyVideo _ _ _ _ _ | EReplyDocument _ _ _ _ => True
  | _ => False
  end.

(** [name], of [size] bytes, is the first entry of the listing [files]
    whose name ends in ".mp4". *)
Definition first_mp4 (files : list File) (name : string) (size : Z) : Prop :=
  exists before after,
    files = (before ++ (name, size) :: after)%list /\
    Forall (fun f : File => endswith f.1 ".mp4" = false) before /\
    endswith name ".mp4" = true.

(** No entry of the listing has a name that ends in ".mp4". *)
Definition no_mp4 (files : list File) : Prop :=
  Forall (fun f : File => endswith f.1 ".mp4" = false) files.

Section Stages.

Variable lower : string -> string.
Variable env : Env.

(** The run has got through the probe: the link is supported, the
    temporary directory [d] exists, and the backend answered [info]. *)
Definition probed (url d : string) (info : gmap string PyVal) : Prop :=
  is_supported_url lower (VStr url) = Ok true /\
  mkdtemp env = Ok d /\
  transport env action_typing = None /\
  extract_info env url = Ok info.

(** ... and the progress message [text] was sent. *)
Definition notified (url d : string) (info : gmap string PyVal) (text : string) : Prop :=
  probed url d info /\
  processing_text info = Ok text /\
  transport env reply_processing = None.

(** ... and the download returned, having written [files]. *)
Definition fetched (url d : string) (info : gmap string PyVal) (text : string)
           (files : list File) : Prop :=
  notified url d info text /\
  download env url = (files, Ok tt).

End Stages.

(** ** States along a run *)

(** The state in which the [with] block starts. *)
Definition entered (fs0 : gmap string (list File)) (d : string) : State :=
  set_fs (fun m => <[d := []]> m)
    (record (EMkdtemp d) (assign_processing_msg None (initial fs0))).

(** The state after the progress message [text] is sent. *)
Definition after_notify (fs0 : gmap string (list File)) (d url text : string) : State :=
  assign_processing_msg (Some 0%nat)
    (post (SText text)
       (record (EReplyText text)
          (record (EExtractInfo url)
             (record (EChatAction "typing") (entered fs0 d))))).

(** The state after the download has written [files]. *)
Definition after_download (fs0 : gmap string (list File)) (d url text : string)
           (files : list File) : State :=
  set_fs (fun m => <[d := (default [] (m !! d) ++ files)%list]> m)
    (record (EDownload url) (after_notify fs0 d url text)).

(** The state in which the [with] block is left, when its body ended in
    [s]. *)
Definition leave (d : string) (s : State) : State :=
  set_fs (delete d) (record (ERmtree d) s).

(** The call that sends the file [name] of [size] bytes found in [d]. *)
Definition delivery_call (info : gmap string PyVal) (d name : string) (size : Z) : Event :=
  if size <? size_limit
  then EReplyVideo (path_join d name) (video_caption info) true (Some 60) (Some 60)
  else EReplyDocument (path_join d name) document_caption None None.

(** What follows the delivery: deleting, logging, text replies and the
    removal of the directory. *)
Definition is_aftermath_event (ev : Event) : Prop :=
  match ev with
  | ELogError _ | EReplyText _ | EDelete _ | ERmtree _ => True
  | _ => False
  end.

(** The call [ev] hands the file at [path] to the chat. *)
Definition delivers (path : string) (ev : Event) : Prop :=
  match ev with
  | EReplyVideo p _ _ _ _ | EReplyDocument p _ _ _ => p = path
  | _ => False
  end.

(** ** Concrete runs *)

Definition info_sample : gmap string PyVal :=
  <["title" := VStr "Sample"]> (<["duration" := VInt 125]> ∅).

Definition text_sample : string :=
  "⏳ Downloading: Sample" ++ nl ++ "⏱ Duration: 2 minutes".

Definition tmp_sample : string := "/tmp/tmpk3x9".

Definition no_fault : Site -> option exn := fun _ => None.

(** A run in which every collaborator answers, and the backend writes
    [files]. *)
Definition env_ok (info : gmap string PyVal) (files : list File) : Env :=
  {| mkdtemp := Ok tmp_sample;
     extract_info := fun _ => Ok info;
     download := fun _ => (files, Ok tt);
     transport := no_fault |}.

(** The probe reports a private video. *)
Definition env_private : Env :=
  {| mkdtemp := Ok tmp_sample;
     extract_info := fun _ => Raise (DownloadError "ERROR: Private video");
     download := fun _ => ([], Ok tt);
     transport := no_fault |}.

(** Sending the progress message fails. *)
Definition env_notify_fails : Env :=
  {| mkdtemp := Ok tmp_sample;
     extract_info := fun _ => Ok info_sample;
     download := fun _ => ([("Sample.mp4", 50 * 1024 * 1024)], Ok tt);
     transport := fun site =>
       match site with
       | reply_processing => Some (PyException "NetworkError" "Connection reset")
       | _ => None
       end |}.

(** The download fails after the progress message was sent. *)
Definition env_fetch_fails : Env :=
  {| mkdtemp := Ok tmp_sample;
     extract_info := fun _ => Ok info_sample;
     download := fun _ => ([("Sample.f137.mp4.part", 1024)],
                           Raise (DownloadError "ERROR: unable to download video data"));
     transport := no_fault |}.

(** The request is cancelled during the download. *)
Definition env_cancelled : Env :=
  {| mkdtemp := Ok tmp_sample;
     extract_info := fun _ => Ok info_sample;
     download := fun _ => ([("Sample.f137.mp4.part", 1024)],
                           Raise (PyBaseException "CancelledError" "Cancelled"));
     transport := no_fault |}.

(** The video is sent, then deleting the progress message fails. *)
Definition env_delete_fails : Env :=
  {| mkdtemp := Ok tmp_sample;
     extract_info := fun _ => Ok info_sample;
     download := fun _ => ([("Sample.mp4", 50 * 1024 * 1024)], Ok tt);
     transport := fun site =>
       match site with
       | delete_processing => Some (PyException "BadRequest" "Message can't be deleted")
       | _ => None
       end |}.

Definition url_sample : string := "https://youtu.be/abc123".

(** A listing with a thumbnail before the video. *)
Definition files_sample : list File :=
  [ ("Sample.jpg", 20 * 1024); ("Sample.mp4", 50 * 1024 * 1024) ].

(** A listing without any ".mp4" entry. *)
Definition files_webm : list File :=
  [ ("Sample.webm", 50 * 1024 * 1024) ].

(** A listing whose video is exactly at the size limit. *)
Definition files_large : list File :=
  [ ("Sample.mp4", 2000 * 1024 * 1024) ].

(** ** Further vocabulary *)

(** Outside the directory [d], the file system is the same. *)
Definition same_outside (d : string) (s s' : State) : Prop :=
  delete d (fs s') = delete d (fs s).


(** Every exception that [m] raises satisfies [P]. *)
Definition raises_only (P : exn -> Prop) {A} (m : M A) : Prop :=
  forall s e, (m s).2 = Raise e -> P e.



(** The send call that the size selects. *)
Definition send_site (size : Z) : Site :=
  if size <? size_limit then send_video else send_document.

(** What the chat shows of the file sent by [delivery_call]. *)
Definition delivered (info : gmap string PyVal) (d name : string) (size : Z) : Sent :=
  if size <? size_limit
  then SVideo (path_join d name) (video_caption info)
  else SDocument (path_join d name) document_caption.

(** How far the calls of the [with] block have got when the aftermath
    begins: each step is taken once, in this order. *)
Inductive reached (lower : string -> string) (env : Env) (url d : string) :
  list Event -> Prop :=
| reached_typing :
    reached lower env url d [ EMkdtemp d; EChatAction "typing" ]
| reached_probe :
    reached lower env url d [ EMkdtemp d; EChatAction "typing"; EExtractInfo url ]
| reached_notify text :
    reached lower env url d
      [ EMkdtemp d; EChatAction "typing"; EExtractInfo url; EReplyText text ]
| reached_download text :
    reached lower env url d
      [ EMkdtemp d; EChatAction "typing"; EExtractInfo url; EReplyText text;
        EDownload url ]
| reached_upload text :
    reached lower env url d
      [ EMkdtemp d; EChatAction "typing"; EExtractInfo url; EReplyText text;
        EDownload url; EChatAction "upload_video" ]
| reached_delivery info text files name size :
    fetched lower env url d info text files ->
    first_mp4 files name size ->
    transport env action_upload = None ->
    reached lower env url d
      [ EMkdtemp d; EChatAction "typing"; EExtractInfo url; EReplyText text;
        EDownload url; EChatAction "upload_video";
        delivery_call info d name size ].

(** The temporary directory cannot be created. *)
Definition env_no_tmp : Env :=
  {| mkdtemp := Raise (PyException "OSError" "No space left on device");
     extract_info := fun _ => Ok info_sample;
     download := fun _ => (files_sample, Ok tt);
     transport := no_fault |}.

(** The transport fails at [site] with the exception [e], and nowhere
    else; the backend writes [files]. *)
Definition env_fault (site : Site) (e : exn) (info : gmap string PyVal)
           (files : list File) : Env :=
  {| mkdtemp := Ok tmp_sample;
     extract_info := fun _ => Ok info;
     download := fun _ => (files, Ok tt);
     transport := fun s =>
       match s, site with
       | reply_unsupported, reply_unsupported
       | action_typing, action_typing
       | reply_processing, reply_processing
       | action_upload, action_upload
       | send_video, send_video
       | send_document, send_document
       | delete_processing, delete_processing
       | reply_download_failed, reply_download_failed
       | reply_unexpected, reply_unexpected
       | delete_in_handler, delete_in_handler => Some e
       | _, _ => None
       end |}.

Definition timed_out : exn := PyException "TimedOut" "Timed out".

(** A live stream: the backend reports the duration as [None]. *)
Definition info_live : gmap string PyVal :=
  <["title" := VStr "Live"]> (<["duration" := VNone]> ∅).

(** A clip of 59 seconds. *)
Definition info_short : gmap string PyVal :=
  <["title" := VStr "Clip"]> (<["duration" := VInt 59]> ∅).

(** The backend answers the probe with something it cannot parse. *)
Definition env_backend_broken : Env :=
  {| mkdtemp := Ok tmp_sample;
     extract_info := fun _ => Raise (PyException "JSONDecodeError" "Expecting value");
     download := fun _ => ([], Ok tt);
     transport := no_fault |}.

(** * Properties *)

(** ** Strings *)

Lemma append_nil_l (s : string) : EmptyString ++ s = s.
Proof. reflexivity. Qed.

Lemma append_cons (c : ascii) (s t : string) : String c s ++ t = String c (s ++ t).
Proof. reflexivity. Qed.

Lemma startswith_app (p t : string) : startswith (p ++ t) p = true.
Proof.
  induction p as [|c p IH]; [reflexivity|].
  rewrite append_cons. simpl. now rewrite Ascii.eqb_refl.
Qed.

Lemma startswith_inv (p s : string) :
  startswith s p = true -> exists t, s = p ++ t.
Proof.
  revert s. induction p as [|c p IH]; intros s H.
  - exists s. reflexivity.
  - destruct s as [|d s]; simpl in H; [discriminate|].
    destruct (Ascii.eqb c d) eqn:E; [|discriminate].
    apply Ascii.eqb_eq in E. subst d.
    destruct (IH _ H) as [t ->]. exists t. reflexivity.
Qed.

Lemma contains_here (needle hay : string) :
  startswith hay needle = true -> contains needle hay = true.
Proof. intros H. destruct hay; simpl; now rewrite H. Qed.

Lemma contains_spec (needle hay : string) :
  contains needle hay = true <-> exists pre post, hay = pre ++ needle ++ post.
Proof.
  split.
  - induction hay as [|c hay IH]; simpl; intros H.
    + apply orb_true_iff in H as [H|H]; [|discriminate].
      apply startswith_inv in H as [t Ht]. exists EmptyString, t. exact Ht.
    + apply orb_true_iff in H as [H|H].
      * apply startswith_inv in H as [t Ht]. exists EmptyString, t. exact Ht.
      * destruct (IH H) as (pre & post & ->). exists (String c pre), post. reflexivity.
  - intros (pre & post & ->).
    induction pre as [|c pre IH].
    + rewrite append_nil_l. apply contains_here, startswith_app.
    + rewrite append_cons. simpl. rewrite IH. apply orb_true_r.
Qed.

Lemma endswith_spec (s suf : string) :
  endswith s suf = true <-> exists pre, s = pre ++ suf.
Proof.
  split.
  - induction s as [|c s IH]; intros H; cbn [endswith] in H.
    + apply orb_true_iff in H as [H|H]; [|discriminate].
      apply String.eqb_eq in H. exists EmptyString. exact H.
    + apply orb_true_iff in H as [H|H].
      * apply String.eqb_eq in H. exists EmptyString. exact H.
      * destruct (IH H) as [pre ->]. exists (String c pre). reflexivity.
  - intros [pre ->].
    induction pre as [|c pre IH].
    + rewrite append_nil_l. destruct suf; cbn [endswith]; now rewrite String.eqb_refl.
    + rewrite append_cons. cbn [endswith]. rewrite IH. apply orb_true_r.
Qed.

(** ** The classifier *)

Section ClassifierFacts.

Variable lower : string -> string.

Lemma any_domain_in_str (s : string) (domains : list string) :
  any_domain_in lower (VStr s) domains
  = Ok (existsb (fun domain => contains domain (lower s)) domains).
Proof.
  induction domains as [|d ds IH]; simpl; [reflexivity|].
  destruct (contains d (lower s)); [reflexivity | exact IH].
Qed.

Lemma is_supported_url_str (s : string) :
  is_supported_url lower (VStr s)
  = Ok (existsb (fun domain => contains domain (lower s)) SUPPORTED_DOMAINS).
Proof. unfold is_supported_url. now rewrite any_domain_in_str. Qed.

(** C2: [is_supported_url] returns on every input, a [str] or not, and
    never raises; it returns [True] exactly when the input is a [str]
    whose lowercased text has one of the fragments of
    [SUPPORTED_DOMAINS] as a substring, and [False] otherwise. *)
Theorem is_supported_url_correct (url : PyVal) :
  exists b : bool,
    is_supported_url lower url = Ok b /\
    (b = true <->
     exists s domain pre post,
       url = VStr s /\ In domain SUPPORTED_DOMAINS /\
       lower s = pre ++ domain ++ post).
Proof.
  destruct url as [|s|z].
  - exists false. split; [reflexivity|].
    split; [discriminate|]. intros (s & ? & ? & ? & H & _). discriminate H.
  - exists (existsb (fun domain => contains domain (lower s)) SUPPORTED_DOMAINS).
    split; [apply is_supported_url_str|].
    rewrite existsb_exists. split.
    + intros (d & Hd & Hc). apply contains_spec in Hc as (pre & post & Hc).
      exists s, d, pre, post. auto.
    + intros (s' & d & pre & post & Hs & Hd & Hc).
      injection Hs as <-. exists d. split; [exact Hd|].
      apply contains_spec. eauto.
  - exists false. split; [reflexivity|].
    split; [discriminate|]. intros (s & ? & ? & ? & H & _). discriminate H.
Qed.

End ClassifierFacts.

(** The fragments are matched in any case and anywhere in the text. *)
Example is_supported_url_examples :
  is_supported_url ascii_lower (VStr "https://YouTu.be/abc123") = Ok true /\
  is_supported_url ascii_lower (VStr "https://example.org/?ref=x.com") = Ok true /\
  is_supported_url ascii_lower (VStr "not a url") = Ok false /\
  is_supported_url ascii_lower VNone = Ok false /\
  is_supported_url ascii_lower (VInt 7) = Ok false.
Proof. repeat split; reflexivity. Qed.

(** ** What a computation leaves unchanged *)

Section Frames.

Context (env : Env) (R : State -> State -> Prop) `{!PreOrder R}.

Lemma respects_ret {A} (a : A) : respects R (ret a).
Proof. intros s. reflexivity. Qed.

Lemma respects_raise {A} (e : exn) : respects R (@raise A e).
Proof. intros s. reflexivity. Qed.

Lemma respects_lift {A} (r : Result A) : respects R (lift r).
Proof. intros s. reflexivity. Qed.

Lemma respects_gets {A} (f : State -> A) : respects R (gets f).
Proof. intros s. reflexivity. Qed.

Lemma respects_modify (f : State -> State) :
  (forall s, R s (f s)) -> respects R (modify f).
Proof. intros H s. apply H. Qed.

Lemma respects_bind {A B} (m : M A) (k : A -> M B) :
  respects R m -> (forall a, respects R (k a)) -> respects R (bind m k).
Proof.
  intros Hm Hk s. unfold bind. specialize (Hm s).
  destruct (m s) as [s' [a|e]]; simpl in *.
  - etransitivity; [exact Hm | apply Hk].
  - exact Hm.
Qed.

Lemma respects_try_pass (m : M unit) : respects R m -> respects R (try_pass m).
Proof.
  intros Hm s. unfold try_pass. specialize (Hm s).
  destruct (m s) as [s' [a|e]]; exact Hm.
Qed.

Lemma respects_transport_call {A} (site : Site) (ev : Event) (effect : M A) :
  (forall s, R s (record ev s)) -> respects R effect ->
  respects R (transport_call env site ev effect).
Proof.
  intros Hev He s. unfold transport_call.
  destruct (transport env site); simpl; [apply Hev|].
  etransitivity; [apply Hev | apply He].
Qed.

Lemma respects_if_processing_msg (k : nat -> M unit) :
  (forall msg, respects R (k msg)) -> respects R (if_processing_msg k).
Proof.
  intros Hk. unfold if_processing_msg.
  apply respects_bind; [apply respects_gets|].
  intros [msg|]; [apply Hk | apply respects_ret].
Qed.

Lemma respects_listdir (d : string) : respects R (listdir d).
Proof. intros s. unfold listdir. destruct (fs s !! d); reflexivity. Qed.

Lemma respects_getsize (d name : string) : respects R (getsize d name).
Proof.
  intros s. unfold getsize. destruct (fs s !! d) as [files|]; [|reflexivity].
  destruct (lookup_file name files); reflexivity.
Qed.

(** After [try]/[except], the state is [R]-related to the one in which
    the body ended. *)
Lemma try_except_after {A} (body : M A) (h1 h2 : exn -> M A) (s : State) :
  (forall e, respects R (h1 e)) -> (forall e, respects R (h2 e)) ->
  R (body s).1 (try_except body h1 h2 s).1.
Proof.
  intros H1 H2. unfold try_except.
  destruct (body s) as [s' [a|e]]; simpl; [reflexivity|].
  destruct (is_DownloadError e); [apply H1|].
  destruct (is_Exception e); [apply H2 | reflexivity].
Qed.

End Frames.

#[local] Instance same_fs_preorder : PreOrder same_fs.
Proof. split; unfold same_fs; [intros s | intros s1 s2 s3]; congruence. Qed.

#[local] Instance grows_by_preorder (P : Event -> Prop) : PreOrder (grows_by P).
Proof.
  split.
  - intros s. exists []. split; [now rewrite app_nil_r | constructor].
  - intros s1 s2 s3 (e1 & H1 & F1) (e2 & H2 & F2). exists (e1 ++ e2)%list. split.
    + rewrite H2, H1. now rewrite app_assoc.
    + apply Forall_app. split; assumption.
Qed.

Lemma grows_by_record (P : Event -> Prop) ev s : P ev -> grows_by P s (record ev s).
Proof. intros H. exists [ev]. split; [reflexivity | repeat constructor; exact H]. Qed.

Lemma grows_by_same_trace (P : Event -> Prop) s s' : trace s' = trace s -> grows_by P s s'.
Proof. intros H. exists []. split; [now rewrite app_nil_r | constructor]. Qed.

(** Splits a goal [respects R m] along the structure of [m]; [leaf] closes
    the goals about single state changes. *)
Ltac frame leaf :=
  repeat first
    [ match goal with H : context [respects] |- _ => apply H end
    | apply respects_ret; exact _
    | apply respects_raise; exact _
    | apply respects_lift; exact _
    | apply respects_gets; exact _
    | apply respects_listdir; exact _
    | apply respects_getsize; exact _
    | apply respects_try_pass
    | apply respects_if_processing_msg; [ exact _ | intros ? ]
    | apply respects_bind; [ exact _ | | intros ? ]
    | apply respects_transport_call; [ exact _ | intros ?; leaf | ]
    | apply respects_modify; intros ?; leaf ].

Ltac same_fs_leaf := unfold same_fs; reflexivity.

Ltac same_trace_leaf :=
  first [ apply grows_by_record; exact I | apply grows_by_same_trace; reflexivity ].


Section HandlerFrames.

Variable env : Env.

Lemma on_DownloadError_same_fs e : respects same_fs (on_DownloadError env e).
Proof. unfold on_DownloadError, log_error, reply_text. frame same_fs_leaf. Qed.

Lemma on_Exception_same_fs e : respects same_fs (on_Exception env e).
Proof. unfold on_Exception, log_error, reply_text, delete_message. frame same_fs_leaf. Qed.

Lemma on_DownloadError_events e :
  respects (grows_by is_handler_event) (on_DownloadError env e).
Proof. unfold on_DownloadError, log_error, reply_text. frame same_trace_leaf. Qed.

Lemma on_Exception_events e :
  respects (grows_by is_handler_event) (on_Exception env e).
Proof.
  unfold on_Exception, log_error, reply_text, delete_message. frame same_trace_leaf.
Qed.

Lemma ydl_extract_info_events url :
  respects (grows_by is_body_event) (ydl_extract_info env url).
Proof. intros s. apply grows_by_record. exact I. Qed.

Lemma ydl_download_events tmp_dir url :
  respects (grows_by is_body_event) (ydl_download env tmp_dir url).
Proof. intros s. exists [EDownload url]. split; [reflexivity | repeat constructor]. Qed.

Lemma send_downloaded_events info tmp_dir :
  respects (grows_by is_body_event) (send_downloaded env info tmp_dir).
Proof.
  unfold send_downloaded, reply_chat_action.
  frame same_trace_leaf.
  match goal with |- context [List.filter ?f ?l] => destruct (List.filter f l) end.
  { apply respects_raise; exact _. }
  frame same_trace_leaf.
  match goal with |- context [?a <? ?b] => destruct (a <? b) end;
    unfold reply_video, reply_document, delete_message; frame same_trace_leaf.
Qed.

Lemma with_body_events url tmp_dir :
  respects (grows_by is_body_event) (with_body env url tmp_dir).
Proof.
  pose proof (send_downloaded_events) as Hsend.
  pose proof (ydl_extract_info_events) as Hprobe.
  pose proof (ydl_download_events) as Hfetch.
  unfold with_body, reply_chat_action, reply_text.
  frame same_trace_leaf.
Qed.

End HandlerFrames.

(** ** The temporary directory *)

Section TemporaryDirectory.

Variable lower : string -> string.
Variable env : Env.

(** How a [with tempfile.TemporaryDirectory()] block ends: either the
    directory could not be created and nothing happened, or the body ran
    in the new directory and the directory was removed afterwards. *)
Lemma with_TemporaryDirectory_inv {A} (body : string -> M A) (s : State) :
  (exists e, mkdtemp env = Raise e /\ with_TemporaryDirectory env body s = (s, Raise e)) \/
  (exists tmp_dir s2 r,
      mkdtemp env = Ok tmp_dir /\
      body tmp_dir (set_fs (fun m => <[tmp_dir := []]> m) (record (EMkdtemp tmp_dir) s)) = (s2, r) /\
      with_TemporaryDirectory env body s
      = (set_fs (delete tmp_dir) (record (ERmtree tmp_dir) s2), r)).
Proof.
  unfold with_TemporaryDirectory.
  destruct (mkdtemp env) as [tmp_dir|e].
  - right.
    destruct (body tmp_dir _) as [s2 r] eqn:Hbody.
    exists tmp_dir, s2, r. auto.
  - left. exists e. auto.
Qed.

Lemma handlers_same_fs (body : M unit) (s : State) :
  fs (try_except body (on_DownloadError env) (on_Exception env) s).1 = fs (body s).1.
Proof.
  apply (try_except_after same_fs).
  - apply on_DownloadError_same_fs.
  - apply on_Exception_same_fs.
Qed.

Lemma handlers_events (body : M unit) (s : State) :
  grows_by is_handler_event (body s).1
    (try_except body (on_DownloadError env) (on_Exception env) s).1.
Proof.
  apply (try_except_after (grows_by is_handler_event)).
  - apply on_DownloadError_events.
  - apply on_Exception_events.
Qed.

(** The two ways a run goes, by the verdict of the classifier. *)
Lemma run_unsupported (url : string) (fs0 : gmap string (list File)) :
  is_supported_url lower (VStr url) = Ok false ->
  run lower env url fs0
  = bind (reply_text env reply_unsupported unsupported_text) (fun _ => ret tt) (initial fs0).
Proof.
  intros H. unfold run, download_and_send_video.
  unfold bind at 1, lift. rewrite H. reflexivity.
Qed.

Lemma run_supported (url : string) (fs0 : gmap string (list File)) :
  is_supported_url lower (VStr url) = Ok true ->
  run lower env url fs0
  = try_except (with_TemporaryDirectory env (with_body env url))
      (on_DownloadError env) (on_Exception env)
      (assign_processing_msg None (initial fs0)).
Proof.
  intros H. unfold run, download_and_send_video.
  unfold bind at 1, lift. rewrite H. reflexivity.
Qed.

(** C3: in every run that created a temporary directory, whatever step
    failed afterwards and with whatever exception, the directory is
    absent from the file system when the run ends. *)
Theorem temporary_directory_removed (url : string) (fs0 : gmap string (list File))
        (tmp_dir : string) :
  In (EMkdtemp tmp_dir) (trace (run lower env url fs0).1) ->
  fs (run lower env url fs0).1 !! tmp_dir = None.
Proof.
  destruct (is_supported_url_correct lower (VStr url)) as [b [Hb _]].
  destruct b.
  2:{ rewrite (run_unsupported _ _ Hb).
      unfold bind, reply_text, transport_call.
      destruct (transport env reply_unsupported); simpl;
        intros [H|[]]; discriminate H. }
  rewrite (run_supported _ _ Hb).
  set (s0 := assign_processing_msg None (initial fs0)).
  set (body := with_TemporaryDirectory env (with_body env url)).
  pose proof (handlers_same_fs body s0) as Hfs.
  destruct (handlers_events body s0) as (evh & Hevh & Fh).
  rewrite Hfs, Hevh. clear Hfs Hevh.
  subst body.
  destruct (with_TemporaryDirectory_inv (with_body env url) s0)
    as [(e & _ & ->) | (d & s2 & r & _ & Hbody & ->)]; simpl.
  - intros Hin. exfalso.
    rewrite List.Forall_forall in Fh. apply (Fh _ Hin).
  - destruct (with_body_events env url d
                (set_fs (fun m => <[d := []]> m) (record (EMkdtemp d) s0)))
      as (evb & Hevb & Fb).
    rewrite Hbody in Hevb. simpl in Hevb. rewrite Hevb.
    rewrite List.Forall_forall in Fh, Fb.
    intros Hin.
    assert (tmp_dir = d) as ->.
    { rewrite !in_app_iff in Hin. simpl in Hin.
      decompose [or] Hin; clear Hin;
        match goal with
        | H : EMkdtemp _ = EMkdtemp _ |- _ => injection H; auto
        | H : _ = EMkdtemp _ |- _ => discriminate H
        | H : In _ evb |- _ => destruct (Fb _ H)
        | H : In _ evh |- _ => destruct (Fh _ H)
        | H : False |- _ => destruct H
        end. }
    apply lookup_delete_eq.
Qed.

End TemporaryDirectory.

(** ** Listings *)

Lemma filter_no_mp4 (files : list File) :
  no_mp4 files -> List.filter (fun f => endswith f ".mp4") (map fst files) = [].
Proof.
  unfold no_mp4. induction 1 as [|f files Hf _ IH]; simpl; [reflexivity|].
  now rewrite Hf.
Qed.

Lemma filter_first_mp4 (files : list File) (name : string) (size : Z) :
  first_mp4 files name size ->
  exists rest, List.filter (fun f => endswith f ".mp4") (map fst files) = name :: rest.
Proof.
  intros (before & after & -> & Hb & Hn).
  exists (List.filter (fun f => endswith f ".mp4") (map fst after)).
  induction Hb as [|f before Hf _ IH]; simpl.
  - now rewrite Hn.
  - now rewrite Hf.
Qed.

Lemma lookup_file_first_mp4 (files : list File) (name : string) (size : Z) :
  first_mp4 files name size -> lookup_file name files = Some size.
Proof.
  intros (before & after & -> & Hb & Hn).
  induction Hb as [|[n z] before Hf _ IH]; simpl.
  - now rewrite String.eqb_refl.
  - destruct (String.eqb n name) eqn:E; [|exact IH].
    apply String.eqb_eq in E. subst n. simpl in Hf. congruence.
Qed.

(** ** Running the handler step by step *)

Section Steps.

Variable lower : string -> string.
Variable env : Env.

Lemma after_download_listing fs0 d url text files :
  fs (after_download fs0 d url text files) !! d = Some files.
Proof.
  unfold after_download, after_notify, entered. simpl.
  rewrite lookup_insert_eq. rewrite lookup_insert_eq. reflexivity.
Qed.

Lemma with_body_probe_fails url d s e :
  transport env action_typing = None ->
  extract_info env url = Raise e ->
  with_body env url d s
  = (record (EExtractInfo url) (record (EChatAction "typing") s), Raise e).
Proof.
  intros Ht Hp.
  unfold with_body, bind, reply_chat_action, transport_call, ydl_extract_info, ret.
  now rewrite Ht, Hp.
Qed.

Lemma with_body_notify_fails url d info text s e :
  transport env action_typing = None ->
  extract_info env url = Ok info ->
  processing_text info = Ok text ->
  transport env reply_processing = Some e ->
  with_body env url d s
  = (record (EReplyText text)
       (record (EExtractInfo url) (record (EChatAction "typing") s)), Raise e).
Proof.
  intros Ht Hp Htext Hn.
  unfold with_body, bind, reply_chat_action, reply_text, transport_call,
    ydl_extract_info, ret, lift.
  now rewrite Ht, Hp, Htext, Hn.
Qed.

Lemma with_body_notified url d info text fs0 :
  transport env action_typing = None ->
  extract_info env url = Ok info ->
  processing_text info = Ok text ->
  transport env reply_processing = None ->
  with_body env url d (entered fs0 d)
  = bind (ydl_download env d url) (fun _ => send_downloaded env info d)
      (after_notify fs0 d url text).
Proof.
  intros Ht Hp Htext Hn.
  unfold with_body, bind, reply_chat_action, reply_text, transport_call,
    ydl_extract_info, ret, lift.
  rewrite Ht, Hp, Htext, Hn. reflexivity.
Qed.

Lemma with_body_fetched url d info text files fs0 :
  fetched lower env url d info text files ->
  with_body env url d (entered fs0 d)
  = send_downloaded env info d (after_download fs0 d url text files).
Proof.
  intros [[(_ & _ & Ht & Hp) [Htext Hn]] Hd].
  rewrite (with_body_notified _ _ _ _ _ Ht Hp Htext Hn).
  unfold bind, ydl_download. rewrite Hd. reflexivity.
Qed.

Lemma with_body_fetch_fails url d info text files e fs0 :
  notified lower env url d info text ->
  download env url = (files, Raise e) ->
  with_body env url d (entered fs0 d)
  = (after_download fs0 d url text files, Raise e).
Proof.
  intros [(_ & _ & Ht & Hp) [Htext Hn]] Hd.
  rewrite (with_body_notified _ _ _ _ _ Ht Hp Htext Hn).
  unfold bind, ydl_download. rewrite Hd. reflexivity.
Qed.

End Steps.

(** ** How a run ends *)

Section Endings.

Variable lower : string -> string.
Variable env : Env.

Lemma with_TemporaryDirectory_Ok {A} (body : string -> M A) (s : State) (d : string) :
  mkdtemp env = Ok d ->
  with_TemporaryDirectory env body s
  = (leave d (body d (set_fs (fun m => <[d := []]> m) (record (EMkdtemp d) s))).1,
     (body d (set_fs (fun m => <[d := []]> m) (record (EMkdtemp d) s))).2).
Proof.
  intros H. unfold with_TemporaryDirectory. rewrite H.
  destruct (body d _) as [s2 r]. reflexivity.
Qed.

Section Entered.

Variables (url : string) (fs0 : gmap string (list File)) (d : string).
Hypothesis Hsupported : is_supported_url lower (VStr url) = Ok true.
Hypothesis Hmkdtemp : mkdtemp env = Ok d.

Lemma run_DownloadError s2 msg :
  with_body env url d (entered fs0 d) = (s2, Raise (DownloadError msg)) ->
  run lower env url fs0 = on_DownloadError env (DownloadError msg) (leave d s2).
Proof.
  intros H. rewrite (run_supported _ _ _ _ Hsupported).
  unfold try_except. rewrite (with_TemporaryDirectory_Ok _ _ _ Hmkdtemp).
  fold (entered fs0 d). now rewrite H.
Qed.

Lemma run_Exception s2 cls msg :
  with_body env url d (entered fs0 d) = (s2, Raise (PyException cls msg)) ->
  run lower env url fs0 = on_Exception env (PyException cls msg) (leave d s2).
Proof.
  intros H. rewrite (run_supported _ _ _ _ Hsupported).
  unfold try_except. rewrite (with_TemporaryDirectory_Ok _ _ _ Hmkdtemp).
  fold (entered fs0 d). now rewrite H.
Qed.

(** The trace of a run: that of the body, the removal of the
    directory, and what the [except] clauses did. *)
Lemma run_trace :
  exists evh,
    trace (run lower env url fs0).1
    = (trace (with_body env url d (entered fs0 d)).1 ++ ERmtree d :: evh)%list /\
    Forall is_handler_event evh.
Proof.
  rewrite (run_supported _ _ _ _ Hsupported).
  destruct (handlers_events env (with_TemporaryDirectory env (with_body env url))
              (assign_processing_msg None (initial fs0))) as (evh & Hev & Fh).
  exists evh. split; [|exact Fh].
  rewrite Hev, (with_TemporaryDirectory_Ok _ _ _ Hmkdtemp).
  fold (entered fs0 d). simpl. now rewrite <- List.app_assoc.
Qed.

Lemma run_fs : fs (run lower env url fs0).1 !! d = None.
Proof.
  rewrite (run_supported _ _ _ _ Hsupported), handlers_same_fs.
  rewrite (with_TemporaryDirectory_Ok _ _ _ Hmkdtemp). simpl.
  apply lookup_delete_eq.
Qed.

End Entered.

Lemma on_DownloadError_trace e s :
  trace (on_DownloadError env e s).1
  = (trace s ++ [ELogError ("❌ Download failed: " ++ str_of_exn e);
                 EReplyText download_failed_text])%list.
Proof.
  unfold on_DownloadError, bind, log_error, modify, reply_text, transport_call, ret.
  destruct (transport env reply_download_failed); simpl; now rewrite <- List.app_assoc.
Qed.

Lemma on_Exception_trace e s :
  trace (on_Exception env e s).1
  = (trace s ++ [ELogError ("Unexpected error: " ++ str_of_exn e);
                 EReplyText unexpected_text]
       ++ match transport env reply_unexpected, processing_msg s with
          | None, Some msg => [EDelete msg]
          | _, _ => []
          end)%list.
Proof.
  unfold on_Exception, if_processing_msg, try_pass, delete_message, log_error,
    reply_text, transport_call, bind, modify, gets, ret.
  destruct (transport env reply_unexpected); simpl.
  - now rewrite <- List.app_assoc.
  - destruct (processing_msg s) as [msg|]; simpl.
    + destruct (transport env delete_in_handler); simpl; now rewrite <- !List.app_assoc.
    + now rewrite <- List.app_assoc.
Qed.

End Endings.

(** ** Failures before and during the download *)

Section Failures.

Variable lower : string -> string.
Variable env : Env.

(** C4, as the code has it: when the probe raises a [DownloadError], the
    "might be private or age-restricted" message is sent and no download
    is attempted; the temporary directory was created before the probe,
    and is removed before the message is sent. *)
Theorem probe_extraction_error (url : string) (fs0 : gmap string (list File))
        (d msg : string) :
  is_supported_url lower (VStr url) = Ok true ->
  mkdtemp env = Ok d ->
  transport env action_typing = None ->
  extract_info env url = Raise (DownloadError msg) ->
  trace (run lower env url fs0).1
  = [ EMkdtemp d; EChatAction "typing"; EExtractInfo url; ERmtree d;
      ELogError ("❌ Download failed: " ++ msg); EReplyText download_failed_text ] /\
  fs (run lower env url fs0).1 !! d = None /\
  (transport env reply_download_failed = None ->
   chat (run lower env url fs0).1 = [(0%nat, SText download_failed_text)]).
Proof.
  intros Hs Hd Ht Hp.
  pose proof (with_body_probe_fails env url d (entered fs0 d) _ Ht Hp) as Hbody.
  split; [|split].
  - rewrite (run_DownloadError _ _ _ _ _ Hs Hd _ _ Hbody).
    rewrite on_DownloadError_trace. reflexivity.
  - apply run_fs; assumption.
  - intros Hr. rewrite (run_DownloadError _ _ _ _ _ Hs Hd _ _ Hbody).
    unfold on_DownloadError, log_error, reply_text, transport_call, bind, modify, ret.
    rewrite Hr. reflexivity.
Qed.

(** C5, as the code has it: when the probe succeeded and sending the
    progress message fails, the request ends there: no download and no
    delivery is attempted and the temporary directory is removed; for a
    failure that is an [Exception], as those of the transport are, the
    failure is logged and the generic message is sent. *)
Theorem notification_failure_is_fatal (url : string) (fs0 : gmap string (list File))
        (d : string) (info : gmap string PyVal) (text : string) (e : exn) :
  probed lower env url d info ->
  processing_text info = Ok text ->
  transport env reply_processing = Some e ->
  (forall ev, In ev (trace (run lower env url fs0).1) ->
              (forall u, ev <> EDownload u) /\ ~ is_delivery ev) /\
  fs (run lower env url fs0).1 !! d = None /\
  (forall cls msg, e = PyException cls msg ->
     trace (run lower env url fs0).1
     = [ EMkdtemp d; EChatAction "typing"; EExtractInfo url; EReplyText text;
         ERmtree d; ELogError ("Unexpected error: " ++ msg);
         EReplyText unexpected_text ]).
Proof.
  intros (Hs & Hd & Ht & Hp) Htext Hn.
  pose proof (with_body_notify_fails env url d info text (entered fs0 d) e
                Ht Hp Htext Hn) as Hbody.
  split; [|split].
  - destruct (run_trace lower env url fs0 d Hs Hd) as (evh & -> & Fh).
    rewrite Hbody. simpl.
    rewrite List.Forall_forall in Fh.
    intros ev Hin.
    repeat (destruct Hin as [<-|Hin]; [split; [discriminate | exact id]|]).
    specialize (Fh _ Hin).
    destruct ev; try destruct Fh; split; (discriminate || exact id).
  - apply run_fs; assumption.
  - intros cls msg ->.
    rewrite (run_Exception _ _ _ _ _ Hs Hd _ _ _ Hbody).
    rewrite on_Exception_trace. simpl.
    destruct (transport env reply_unexpected); reflexivity.
Qed.

Lemma send_downloaded_no_mp4 info d s files :
  fs s !! d = Some files -> no_mp4 files ->
  send_downloaded env info d s
  = (s, Raise (PyException "Exception" "No video file found after download")).
Proof.
  intros Hfs Hno. unfold send_downloaded, bind, listdir. cbv beta.
  rewrite Hfs, (filter_no_mp4 _ Hno). reflexivity.
Qed.

(** The run in which the download leaves no ".mp4" entry. *)
Lemma run_no_mp4 (url : string) (fs0 : gmap string (list File)) (d : string)
      (info : gmap string PyVal) (text : string) (files : list File) :
  fetched lower env url d info text files ->
  no_mp4 files ->
  run lower env url fs0
  = on_Exception env (PyException "Exception" "No video file found after download")
      (leave d (after_download fs0 d url text files)).
Proof.
  intros Hf Hno.
  pose proof Hf as [[(Hs & Hd & _) _] _].
  pose proof (with_body_fetched lower env url d info text files fs0 Hf) as Hbody.
  rewrite (send_downloaded_no_mp4 _ _ _ _ (after_download_listing _ _ _ _ _) Hno) in Hbody.
  exact (run_Exception _ _ _ _ _ Hs Hd _ _ _ Hbody).
Qed.

Lemma run_no_mp4_trace (url : string) (fs0 : gmap string (list File)) (d : string)
      (info : gmap string PyVal) (text : string) (files : list File) :
  fetched lower env url d info text files ->
  no_mp4 files ->
  trace (run lower env url fs0).1
  = ([ EMkdtemp d; EChatAction "typing"; EExtractInfo url; EReplyText text;
       EDownload url; ERmtree d;
       ELogError "Unexpected error: No video file found after download";
       EReplyText unexpected_text ]
     ++ match transport env reply_unexpected with
        | None => [EDelete 0]
        | Some _ => []
        end)%list.
Proof.
  intros Hf Hno. rewrite (run_no_mp4 _ _ _ _ _ _ Hf Hno).
  rewrite on_Exception_trace. simpl.
  destruct (transport env reply_unexpected); reflexivity.
Qed.

(** C7: when the download returns and no entry of the temporary
    directory ends in ".mp4", the run takes the generic failure path: the
    error is logged, the "try again later" message is sent and not the
    extraction one, nothing is delivered, and the directory is removed
    with whatever it holds. *)
Theorem no_output_file (url : string) (fs0 : gmap string (list File)) (d : string)
        (info : gmap string PyVal) (text : string) (files : list File) :
  fetched lower env url d info text files ->
  no_mp4 files ->
  trace (run lower env url fs0).1
  = ([ EMkdtemp d; EChatAction "typing"; EExtractInfo url; EReplyText text;
       EDownload url; ERmtree d;
       ELogError "Unexpected error: No video file found after download";
       EReplyText unexpected_text ]
     ++ match transport env reply_unexpected with
        | None => [EDelete 0]
        | Some _ => []
        end)%list /\
  fs (run lower env url fs0).1 !! d = None /\
  (transport env reply_unexpected = None ->
   In (SText unexpected_text) (map snd (chat (run lower env url fs0).1))).
Proof.
  intros Hf Hno.
  pose proof Hf as [[(Hs & Hd & _) _] _].
  split; [|split].
  - exact (run_no_mp4_trace _ _ _ _ _ _ Hf Hno).
  - apply run_fs; assumption.
  - intros Hr. rewrite (run_no_mp4 _ _ _ _ _ _ Hf Hno).
    unfold on_Exception, if_processing_msg, try_pass, delete_message, log_error,
      reply_text, transport_call, bind, modify, gets, ret.
    rewrite Hr. simpl.
    destruct (transport env delete_in_handler); simpl; auto.
Qed.

(** X18: when the download raises a [DownloadError], the run answers as
    for a failed probe, with the "private or age-restricted" message; no
    call deletes the progress message, and it is still in the chat when
    the run ends. *)
Lemma download_error_never_deletes (url : string) (fs0 : gmap string (list File))
      (d : string) (info : gmap string PyVal) (text : string) (files : list File)
      (msg : string) :
  notified lower env url d info text ->
  download env url = (files, Raise (DownloadError msg)) ->
  trace (run lower env url fs0).1
  = [ EMkdtemp d; EChatAction "typing"; EExtractInfo url; EReplyText text;
      EDownload url; ERmtree d;
      ELogError ("❌ Download failed: " ++ msg); EReplyText download_failed_text ] /\
  In (0%nat, SText text) (chat (run lower env url fs0).1).
Proof.
  intros Hn Hdl.
  pose proof Hn as [(Hs & Hd & _) _].
  pose proof (with_body_fetch_fails lower env url d info text files _ fs0 Hn Hdl) as Hbody.
  rewrite (run_DownloadError _ _ _ _ _ Hs Hd _ _ Hbody).
  split.
  - rewrite on_DownloadError_trace. reflexivity.
  - unfold on_DownloadError, log_error, reply_text, transport_call, bind, modify, ret.
    destruct (transport env reply_download_failed); simpl; auto.
Qed.

End Failures.

(** ** Delivery *)

Section Delivery.

Variable lower : string -> string.
Variable env : Env.

Lemma send_downloaded_upload_fails info d s files name size e :
  fs s !! d = Some files ->
  first_mp4 files name size ->
  transport env action_upload = Some e ->
  send_downloaded env info d s = (record (EChatAction "upload_video") s, Raise e).
Proof.
  intros Hfs Hfirst Hup.
  destruct (filter_first_mp4 _ _ _ Hfirst) as [rest Hrest].
  unfold send_downloaded, bind, listdir, reply_chat_action, transport_call. cbv beta.
  rewrite Hfs, Hrest. cbv zeta. now rewrite Hup.
Qed.

Lemma send_downloaded_first_mp4 info d s files name size :
  fs s !! d = Some files ->
  first_mp4 files name size ->
  transport env action_upload = None ->
  send_downloaded env info d s
  = bind (if size <? size_limit
          then reply_video env (path_join d name) (video_caption info)
          else reply_document env (path_join d name) document_caption)
      (fun _ => if_processing_msg (delete_message env delete_processing))
      (record (EChatAction "upload_video") s).
Proof.
  intros Hfs Hfirst Hup.
  destruct (filter_first_mp4 _ _ _ Hfirst) as [rest Hrest].
  pose proof (lookup_file_first_mp4 _ _ _ Hfirst) as Hsize.
  unfold send_downloaded, listdir, reply_chat_action, transport_call, getsize, ret.
  unfold bind at 1. cbv beta. rewrite Hfs, Hrest. cbv zeta.
  unfold bind at 1. rewrite Hup.
  unfold bind at 1. cbn [fs record]. rewrite Hfs, Hsize.
  reflexivity.
Qed.

Lemma delete_processing_events :
  respects (grows_by is_aftermath_event)
    (if_processing_msg (delete_message env delete_processing)).
Proof. unfold delete_message. frame same_trace_leaf. Qed.

(** From the upload on: the delivery call, then only the aftermath. *)
Lemma delivery_trace info d name size s :
  exists evs,
    trace (bind (if size <? size_limit
                 then reply_video env (path_join d name) (video_caption info)
                 else reply_document env (path_join d name) document_caption)
             (fun _ => if_processing_msg (delete_message env delete_processing)) s).1
    = (trace s ++ delivery_call info d name size :: evs)%list /\
    Forall is_aftermath_event evs.
Proof.
  unfold delivery_call.
  destruct (size <? size_limit);
    unfold bind at 1, reply_video, reply_document, transport_call, modify.
  - destruct (transport env send_video).
    + exists []. split; [reflexivity | constructor].
    + destruct (delete_processing_events
                  (post (SVideo (path_join d name) (video_caption info))
                     (record (EReplyVideo (path_join d name) (video_caption info)
                                true (Some 60) (Some 60)) s)))
        as (evs & Hev & Fev).
      exists evs. split; [|exact Fev].
      rewrite Hev. simpl. now rewrite <- List.app_assoc.
  - destruct (transport env send_document).
    + exists []. split; [reflexivity | constructor].
    + destruct (delete_processing_events
                  (post (SDocument (path_join d name) document_caption)
                     (record (EReplyDocument (path_join d name) document_caption
                                None None) s)))
        as (evs & Hev & Fev).
      exists evs. split; [|exact Fev].
      rewrite Hev. simpl. now rewrite <- List.app_assoc.
Qed.

Lemma is_handler_aftermath ev : is_handler_event ev -> is_aftermath_event ev.
Proof. destruct ev; simpl; auto. Qed.

(** The trace of a run that reaches the upload. *)
Lemma run_delivery_trace url fs0 d info text files name size :
  fetched lower env url d info text files ->
  first_mp4 files name size ->
  transport env action_upload = None ->
  exists evs,
    trace (run lower env url fs0).1
    = ([ EMkdtemp d; EChatAction "typing"; EExtractInfo url; EReplyText text;
         EDownload url; EChatAction "upload_video";
         delivery_call info d name size ] ++ evs)%list /\
    Forall is_aftermath_event evs.
Proof.
  intros Hf Hfirst Hup.
  pose proof Hf as [[(Hs & Hd & _) _] _].
  destruct (run_trace lower env url fs0 d Hs Hd) as (evh & -> & Fh).
  rewrite (with_body_fetched lower env url d info text files fs0 Hf).
  rewrite (send_downloaded_first_mp4 _ _ _ _ _ _
             (after_download_listing _ _ _ _ _) Hfirst Hup).
  destruct (delivery_trace info d name size
              (record (EChatAction "upload_video") (after_download fs0 d url text files)))
    as (evs & -> & Fev).
  exists (evs ++ ERmtree d :: evh)%list. split.
  - reflexivity.
  - apply Forall_app. split; [exact Fev|].
    constructor; [exact I|].
    eapply Forall_impl; [exact Fh|]. apply is_handler_aftermath.
Qed.

(** The trace of a run whose upload announcement fails. *)
Lemma run_upload_fails_trace url fs0 d info text files name size e :
  fetched lower env url d info text files ->
  first_mp4 files name size ->
  transport env action_upload = Some e ->
  exists evs,
    trace (run lower env url fs0).1
    = ([ EMkdtemp d; EChatAction "typing"; EExtractInfo url; EReplyText text;
         EDownload url; EChatAction "upload_video" ] ++ evs)%list /\
    Forall is_aftermath_event evs.
Proof.
  intros Hf Hfirst Hup.
  pose proof Hf as [[(Hs & Hd & _) _] _].
  destruct (run_trace lower env url fs0 d Hs Hd) as (evh & -> & Fh).
  rewrite (with_body_fetched lower env url d info text files fs0 Hf).
  rewrite (send_downloaded_upload_fails _ _ _ _ _ _ _
             (after_download_listing _ _ _ _ _) Hfirst Hup).
  exists (ERmtree d :: evh). split; [reflexivity|].
  constructor; [exact I|].
  eapply Forall_impl; [exact Fh|]. apply is_handler_aftermath.
Qed.

End Delivery.

(** ** What is delivered, and how *)

Section DeliveryFacts.

Variable lower : string -> string.
Variable env : Env.

Lemma aftermath_not_delivery ev : is_aftermath_event ev -> ~ is_delivery ev.
Proof. destruct ev; simpl; auto. Qed.

(** In a run that reaches the upload, the delivery call is the only
    call that hands over a file. *)
Lemma delivery_unique d url text call evs ev :
  Forall is_aftermath_event evs ->
  In ev ([ EMkdtemp d; EChatAction "typing"; EExtractInfo url; EReplyText text;
           EDownload url; EChatAction "upload_video"; call ] ++ evs)%list ->
  is_delivery ev -> ev = call.
Proof.
  intros Fev Hin Hdel. simpl in Hin.
  repeat (destruct Hin as [<-|Hin]; [solve [destruct Hdel | reflexivity]|]).
  rewrite List.Forall_forall in Fev.
  destruct (aftermath_not_delivery _ (Fev _ Hin) Hdel).
Qed.

Lemma video_caption_title info title :
  info !! "title" = Some (VStr title) -> video_caption info = "✅ " ++ title.
Proof. intros H. unfold video_caption, dict_get. now rewrite H. Qed.

Lemma video_caption_default info :
  info !! "title" = None -> video_caption info = "✅ Downloaded Video".
Proof. intros H. unfold video_caption, dict_get. now rewrite H. Qed.

Lemma delivery_call_small info d name size :
  size < 2000 * 1024 * 1024 ->
  delivery_call info d name size
  = EReplyVideo (path_join d name) (video_caption info) true (Some 60) (Some 60).
Proof.
  intros H. unfold delivery_call.
  destruct (Z.ltb_spec size size_limit) as [_|Hge]; [reflexivity|].
  unfold size_limit in Hge. lia.
Qed.

Lemma delivery_call_large info d name size :
  2000 * 1024 * 1024 <= size ->
  delivery_call info d name size
  = EReplyDocument (path_join d name) document_caption None None.
Proof.
  intros H. unfold delivery_call.
  destruct (Z.ltb_spec size size_limit) as [Hlt|_]; [|reflexivity].
  unfold size_limit in Hlt. lia.
Qed.

(** C1: the downloaded file, the first ".mp4" entry of the temporary
    directory, is sent by its size: below 2000*1024*1024 bytes as a
    streamable video captioned with the title, at or above that size as
    a document with the fixed caption; no other delivery call is made. *)
Theorem delivery_mode_by_size (url : string) (fs0 : gmap string (list File))
        (d : string) (info : gmap string PyVal) (text : string) (files : list File)
        (name : string) (size : Z) (title : string) :
  fetched lower env url d info text files ->
  first_mp4 files name size ->
  transport env action_upload = None ->
  info !! "title" = Some (VStr title) ->
  (size < 2000 * 1024 * 1024 ->
   In (EReplyVideo (path_join d name) ("✅ " ++ title) true (Some 60) (Some 60))
      (trace (run lower env url fs0).1) /\
   forall ev, In ev (trace (run lower env url fs0).1) -> is_delivery ev ->
     ev = EReplyVideo (path_join d name) ("✅ " ++ title) true (Some 60) (Some 60)) /\
  (2000 * 1024 * 1024 <= size ->
   In (EReplyDocument (path_join d name)
         "📁 File too large for streaming, sent as document" None None)
      (trace (run lower env url fs0).1) /\
   forall ev, In ev (trace (run lower env url fs0).1) -> is_delivery ev ->
     ev = EReplyDocument (path_join d name)
            "📁 File too large for streaming, sent as document" None None).
Proof.
  intros Hf Hfirst Hup Htitle.
  destruct (run_delivery_trace lower env url fs0 d info text files name size
              Hf Hfirst Hup) as (evs & Htr & Fev).
  rewrite Htr. split; intros Hsize.
  - rewrite (delivery_call_small _ _ _ _ Hsize), (video_caption_title _ _ Htitle).
    split.
    + simpl. auto 10.
    + intros ev. apply delivery_unique. exact Fev.
  - rewrite (delivery_call_large _ _ _ _ Hsize).
    split.
    + simpl. auto 10.
    + intros ev. apply delivery_unique. exact Fev.
Qed.

(** C9: of the entries of the temporary directory, the first one in
    listing order whose name ends in ".mp4" is the file that is
    delivered, and no other file ever is; when no name ends in ".mp4" the
    run takes the no-file failure path, whatever else the directory
    holds. *)
Theorem first_mp4_is_delivered (url : string) (fs0 : gmap string (list File))
        (d : string) (info : gmap string PyVal) (text : string) (files : list File) :
  fetched lower env url d info text files ->
  (forall name size,
      first_mp4 files name size ->
      (forall ev, In ev (trace (run lower env url fs0).1) -> is_delivery ev ->
                  delivers (path_join d name) ev) /\
      (transport env action_upload = None ->
       exists ev, In ev (trace (run lower env url fs0).1) /\
                  delivers (path_join d name) ev)) /\
  (no_mp4 files ->
   (forall ev, In ev (trace (run lower env url fs0).1) -> ~ is_delivery ev) /\
   In (ELogError "Unexpected error: No video file found after download")
      (trace (run lower env url fs0).1) /\
   In (EReplyText unexpected_text) (trace (run lower env url fs0).1)).
Proof.
  intros Hf. split.
  - intros name size Hfirst.
    assert (Hcall : delivers (path_join d name) (delivery_call info d name size)).
    { unfold delivery_call. destruct (size <? size_limit); reflexivity. }
    destruct (transport env action_upload) as [e|] eqn:Hup.
    + destruct (run_upload_fails_trace lower env url fs0 d info text files name size e
                  Hf Hfirst Hup) as (evs & -> & Fev).
      split; [|discriminate].
      intros ev Hin Hdel. exfalso. simpl in Hin.
      repeat (destruct Hin as [<-|Hin]; [exact Hdel|]).
      rewrite List.Forall_forall in Fev.
      exact (aftermath_not_delivery _ (Fev _ Hin) Hdel).
    + destruct (run_delivery_trace lower env url fs0 d info text files name size
                  Hf Hfirst Hup) as (evs & -> & Fev).
      split.
      * intros ev Hin Hdel.
        now rewrite (delivery_unique _ _ _ _ _ _ Fev Hin Hdel).
      * intros _. exists (delivery_call info d name size).
        split; [simpl; auto 10 | exact Hcall].
  - intros Hno. rewrite (run_no_mp4_trace lower env url fs0 d info text files Hf Hno).
    split; [|split].
    + intros ev Hin Hdel. simpl in Hin.
      repeat (destruct Hin as [<-|Hin]; [exact Hdel|]).
      destruct (transport env reply_unexpected); simpl in Hin.
      * exact Hin.
      * destruct Hin as [<-|[]]. exact Hdel.
    + simpl. auto 10.
    + simpl. auto 10.
Qed.

End DeliveryFacts.

(** ** Missing metadata *)

Section Metadata.

Variable lower : string -> string.
Variable env : Env.

Lemma processing_text_no_duration info :
  info !! "duration" = None ->
  processing_text info
  = Ok ("⏳ Downloading: " ++ py_str (dict_get info "title" (VStr "video")) ++ nl ++
        "⏱ Duration: 0 minutes").
Proof. intros H. unfold processing_text, dict_get. rewrite H. reflexivity. Qed.

Lemma processing_text_no_title info text :
  info !! "title" = None ->
  processing_text info = Ok text ->
  exists minutes,
    text = "⏳ Downloading: video" ++ nl ++ "⏱ Duration: " ++ minutes ++ " minutes".
Proof.
  intros H. unfold processing_text, dict_get. rewrite H.
  destruct (floordiv _ 60) as [m|e]; simpl; [|discriminate].
  intros [= <-]. exists (py_str m). reflexivity.
Qed.

(** The progress message is tried as soon as the probe has answered. *)
Lemma run_notify_attempted url fs0 d info text :
  probed lower env url d info ->
  processing_text info = Ok text ->
  In (EReplyText text) (trace (run lower env url fs0).1).
Proof.
  intros (Hs & Hd & Ht & Hp) Htext.
  destruct (run_trace lower env url fs0 d Hs Hd) as (evh & -> & _).
  apply in_or_app. left.
  destruct (transport env reply_processing) as [e|] eqn:Hn.
  - rewrite (with_body_notify_fails env url d info text _ e Ht Hp Htext Hn).
    simpl. auto.
  - rewrite (with_body_notified env url d info text fs0 Ht Hp Htext Hn).
    assert (Hrest : respects (grows_by is_body_event)
                      (bind (ydl_download env d url)
                         (fun _ => send_downloaded env info d))).
    { pose proof (send_downloaded_events env) as Hsend.
      pose proof (ydl_download_events env) as Hfetch.
      frame same_trace_leaf. }
    destruct (Hrest (after_notify fs0 d url text)) as (evs & -> & _).
    apply in_or_app. left. simpl. auto.
Qed.

(** C10: a probe answer without "title" or without "duration" does not
    fail the run.  Without "duration" the progress message says
    "0 minutes"; without "title" it names the video "video", and the
    caption of a streamable delivery is "Downloaded Video". *)
Theorem missing_metadata_defaults (url : string) (fs0 : gmap string (list File))
        (d : string) (info : gmap string PyVal) :
  probed lower env url d info ->
  (info !! "duration" = None ->
   In (EReplyText ("⏳ Downloading: " ++ py_str (dict_get info "title" (VStr "video"))
                     ++ nl ++ "⏱ Duration: 0 minutes"))
      (trace (run lower env url fs0).1)) /\
  (info !! "title" = None ->
   (forall text, processing_text info = Ok text ->
      In (EReplyText text) (trace (run lower env url fs0).1) /\
      exists minutes,
        text = "⏳ Downloading: video" ++ nl ++ "⏱ Duration: " ++ minutes ++ " minutes") /\
   (forall text files name size,
      notified lower env url d info text ->
      download env url = (files, Ok tt) ->
      first_mp4 files name size ->
      size < 2000 * 1024 * 1024 ->
      transport env action_upload = None ->
      In (EReplyVideo (path_join d name) "✅ Downloaded Video" true (Some 60) (Some 60))
         (trace (run lower env url fs0).1))) /\
  (info !! "title" = None -> info !! "duration" = None ->
   In (EReplyText ("⏳ Downloading: video" ++ nl ++ "⏱ Duration: 0 minutes"))
      (trace (run lower env url fs0).1)).
Proof.
  intros Hprobed. split; [|split].
  - intros Hdur. apply run_notify_attempted with (d := d) (info := info); [assumption|].
    now apply processing_text_no_duration.
  - intros Htitle. split.
    + intros text Htext. split.
      * now apply run_notify_attempted with (d := d) (info := info).
      * now apply processing_text_no_title with (info := info).
    + intros text files name size Hn Hdl Hfirst Hsize Hup.
      destruct (run_delivery_trace lower env url fs0 d info text files name size
                  (conj Hn Hdl) Hfirst Hup) as (evs & -> & _).
      rewrite (delivery_call_small _ _ _ _ Hsize), (video_caption_default _ Htitle).
      simpl. auto 10.
  - intros Htitle Hdur.
    apply run_notify_attempted with (d := d) (info := info); [assumption|].
    rewrite (processing_text_no_duration _ Hdur). unfold dict_get. now rewrite Htitle.
Qed.

End Metadata.

(** ** Runs on concrete inputs *)

Lemma fetched_sample (files : list File) :
  fetched ascii_lower (env_ok info_sample files) url_sample tmp_sample
    info_sample text_sample files.
Proof. repeat split; vm_compute; reflexivity. Qed.

Lemma first_mp4_sample : first_mp4 files_sample "Sample.mp4" (50 * 1024 * 1024).
Proof.
  exists [("Sample.jpg", 20 * 1024)], []. split; [reflexivity|].
  split; [|reflexivity]. repeat constructor.
Qed.

(** A 50 MiB video, listed after its thumbnail, is streamed. *)
Example run_sample :
  trace (run ascii_lower (env_ok info_sample files_sample) url_sample ∅).1
  = [ EMkdtemp tmp_sample; EChatAction "typing"; EExtractInfo url_sample;
      EReplyText ("⏳ Downloading: Sample" ++ nl ++ "⏱ Duration: 2 minutes");
      EDownload url_sample; EChatAction "upload_video";
      EReplyVideo "/tmp/tmpk3x9/Sample.mp4" "✅ Sample" true (Some 60) (Some 60);
      EDelete 0; ERmtree tmp_sample ] /\
  chat (run ascii_lower (env_ok info_sample files_sample) url_sample ∅).1
  = [ (1%nat, SVideo "/tmp/tmpk3x9/Sample.mp4" "✅ Sample") ].
Proof. split; vm_compute; reflexivity. Qed.

(** A text without a supported fragment is rejected before anything else. *)
Example run_unsupported_sample :
  trace (run ascii_lower (env_ok info_sample files_sample) "not a url" ∅).1
  = [ EReplyText unsupported_text ].
Proof. vm_compute. reflexivity. Qed.

(** A cancellation goes through both [except] clauses; the directory is
    removed all the same. *)
Example run_cancelled :
  (run ascii_lower env_cancelled url_sample ∅).2
  = Raise (PyBaseException "CancelledError" "Cancelled") /\
  fs (run ascii_lower env_cancelled url_sample ∅).1 !! tmp_sample = None.
Proof. split; vm_compute; reflexivity. Qed.

(** C4, counterexample: the probe reports a private video, and the
    temporary directory has been created all the same, before the probe. *)
Lemma probe_failure_after_mkdtemp :
  extract_info env_private url_sample = Raise (DownloadError "ERROR: Private video") /\
  trace (run ascii_lower env_private url_sample ∅).1
  = [ EMkdtemp tmp_sample; EChatAction "typing"; EExtractInfo url_sample;
      ERmtree tmp_sample; ELogError "❌ Download failed: ERROR: Private video";
      EReplyText download_failed_text ] /\
  In (EMkdtemp tmp_sample) (trace (run ascii_lower env_private url_sample ∅).1).
Proof. split; [|split]; vm_compute; auto. Qed.

(** C5, counterexample: the probe succeeds and the progress message cannot
    be sent; the run stops with the generic failure message, and neither
    the download nor a delivery is attempted. *)
Lemma notification_failure_stops_run :
  extract_info env_notify_fails url_sample = Ok info_sample /\
  transport env_notify_fails reply_processing
  = Some (PyException "NetworkError" "Connection reset") /\
  trace (run ascii_lower env_notify_fails url_sample ∅).1
  = [ EMkdtemp tmp_sample; EChatAction "typing"; EExtractInfo url_sample;
      EReplyText text_sample; ERmtree tmp_sample;
      ELogError "Unexpected error: Connection reset";
      EReplyText unexpected_text ] /\
  ~ In (EDownload url_sample) (trace (run ascii_lower env_notify_fails url_sample ∅).1).
Proof.
  split; [|split; [|split]]; try (vm_compute; reflexivity).
  vm_compute. intros H. repeat (destruct H as [H|H]; [discriminate H|]). exact H.
Qed.

(** C6, at the failing run: the download raises a [DownloadError] after
    the progress message was sent.  The [except DownloadError] clause sends
    its message and returns; the progress message is never deleted and
    stays in the chat. *)
Lemma download_error_keeps_progress_message :
  processing_msg (run ascii_lower env_fetch_fails url_sample ∅).1 = Some 0%nat /\
  trace (run ascii_lower env_fetch_fails url_sample ∅).1
  = [ EMkdtemp tmp_sample; EChatAction "typing"; EExtractInfo url_sample;
      EReplyText text_sample; EDownload url_sample; ERmtree tmp_sample;
      ELogError "❌ Download failed: ERROR: unable to download video data";
      EReplyText download_failed_text ] /\
  chat (run ascii_lower env_fetch_fails url_sample ∅).1
  = [ (0%nat, SText text_sample); (1%nat, SText download_failed_text) ].
Proof. split; [|split]; vm_compute; reflexivity. Qed.

(** On the successful path the deletion of the progress message is not
    guarded: when it fails after the video was sent, the user gets the
    generic failure message on top of the video. *)
Lemma delete_failure_reaches_user :
  trace (run ascii_lower env_delete_fails url_sample ∅).1
  = [ EMkdtemp tmp_sample; EChatAction "typing"; EExtractInfo url_sample;
      EReplyText text_sample; EDownload url_sample; EChatAction "upload_video";
      EReplyVideo "/tmp/tmpk3x9/Sample.mp4" "✅ Sample" true (Some 60) (Some 60);
      EDelete 0; ERmtree tmp_sample;
      ELogError "Unexpected error: Message can't be deleted";
      EReplyText unexpected_text; EDelete 0 ] /\
  chat (run ascii_lower env_delete_fails url_sample ∅).1
  = [ (1%nat, SVideo "/tmp/tmpk3x9/Sample.mp4" "✅ Sample");
      (2%nat, SText unexpected_text) ].
Proof. split; vm_compute; reflexivity. Qed.

(** C8, at the failing run: a file of exactly 2000*1024*1024 bytes is sent
    with [reply_document], and that call passes neither [read_timeout] nor
    [write_timeout]. *)
Lemma document_sent_without_timeouts :
  trace (run ascii_lower (env_ok info_sample files_large) url_sample ∅).1
  = [ EMkdtemp tmp_sample; EChatAction "typing"; EExtractInfo url_sample;
      EReplyText text_sample; EDownload url_sample; EChatAction "upload_video";
      EReplyDocument "/tmp/tmpk3x9/Sample.mp4" document_caption None None;
      EDelete 0; ERmtree tmp_sample ].
Proof. vm_compute. reflexivity. Qed.

(** ** The theorems at concrete runs *)

Lemma temporary_directory_removed_witness :
  In (EMkdtemp tmp_sample) (trace (run ascii_lower env_fetch_fails url_sample ∅).1) /\
  fs (run ascii_lower env_fetch_fails url_sample ∅).1 !! tmp_sample = None.
Proof.
  assert (H : In (EMkdtemp tmp_sample)
                (trace (run ascii_lower env_fetch_fails url_sample ∅).1))
    by (vm_compute; auto).
  split; [exact H|].
  exact (temporary_directory_removed ascii_lower env_fetch_fails url_sample ∅ tmp_sample H).
Defined.

Lemma probe_extraction_error_witness :
  trace (run ascii_lower env_private url_sample ∅).1
  = [ EMkdtemp tmp_sample; EChatAction "typing"; EExtractInfo url_sample;
      ERmtree tmp_sample;
      ELogError ("❌ Download failed: " ++ "ERROR: Private video");
      EReplyText download_failed_text ] /\
  chat (run ascii_lower env_private url_sample ∅).1 = [(0%nat, SText download_failed_text)].
Proof.
  destruct (probe_extraction_error ascii_lower env_private url_sample ∅ tmp_sample
              "ERROR: Private video" eq_refl eq_refl eq_refl eq_refl)
    as (Htrace & _ & Hchat).
  split; [exact Htrace | exact (Hchat eq_refl)].
Defined.

Lemma notification_failure_is_fatal_witness :
  probed ascii_lower env_notify_fails url_sample tmp_sample info_sample /\
  forall ev, In ev (trace (run ascii_lower env_notify_fails url_sample ∅).1) ->
             (forall u, ev <> EDownload u) /\ ~ is_delivery ev.
Proof.
  assert (H : probed ascii_lower env_notify_fails url_sample tmp_sample info_sample)
    by (repeat split; reflexivity).
  split; [exact H|].
  exact (proj1 (notification_failure_is_fatal ascii_lower env_notify_fails url_sample ∅
                  tmp_sample info_sample text_sample
                  (PyException "NetworkError" "Connection reset")
                  H eq_refl eq_refl)).
Defined.

Lemma no_output_file_witness :
  no_mp4 files_webm /\
  In (SText unexpected_text)
     (map snd (chat (run ascii_lower (env_ok info_sample files_webm) url_sample ∅).1)).
Proof.
  assert (H : no_mp4 files_webm) by (repeat constructor).
  split; [exact H|].
  exact (proj2 (proj2 (no_output_file ascii_lower (env_ok info_sample files_webm)
                         url_sample ∅ tmp_sample info_sample text_sample files_webm
                         (fetched_sample files_webm) H)) eq_refl).
Defined.

Lemma delivery_mode_by_size_witness :
  In (EReplyVideo (path_join tmp_sample "Sample.mp4") ("✅ " ++ "Sample")
        true (Some 60) (Some 60))
     (trace (run ascii_lower (env_ok info_sample files_sample) url_sample ∅).1).
Proof.
  refine (proj1 (proj1 (delivery_mode_by_size ascii_lower (env_ok info_sample files_sample)
                   url_sample ∅ tmp_sample info_sample text_sample files_sample
                   "Sample.mp4" (50 * 1024 * 1024) "Sample"
                   (fetched_sample files_sample) first_mp4_sample eq_refl eq_refl) _)).
  lia.
Defined.

Lemma first_mp4_is_delivered_witness :
  exists ev,
    In ev (trace (run ascii_lower (env_ok info_sample files_sample) url_sample ∅).1) /\
    delivers (path_join tmp_sample "Sample.mp4") ev.
Proof.
  exact (proj2 (proj1 (first_mp4_is_delivered ascii_lower (env_ok info_sample files_sample)
                         url_sample ∅ tmp_sample info_sample text_sample files_sample
                         (fetched_sample files_sample))
                  "Sample.mp4" (50 * 1024 * 1024) first_mp4_sample) eq_refl).
Defined.

Lemma missing_metadata_defaults_witness :
  In (EReplyText ("⏳ Downloading: video" ++ nl ++ "⏱ Duration: 0 minutes"))
     (trace (run ascii_lower (env_ok ∅ files_sample) url_sample ∅).1) /\
  In (EReplyVideo (path_join tmp_sample "Sample.mp4") "✅ Downloaded Video"
        true (Some 60) (Some 60))
     (trace (run ascii_lower (env_ok ∅ files_sample) url_sample ∅).1).
Proof.
  assert (Hp : probed ascii_lower (env_ok ∅ files_sample) url_sample tmp_sample ∅)
    by (repeat split; reflexivity).
  destruct (missing_metadata_defaults ascii_lower (env_ok ∅ files_sample) url_sample ∅
              tmp_sample ∅ Hp) as (_ & Htitle & Hboth).
  split.
  - exact (Hboth eq_refl eq_refl).
  - refine (proj2 (Htitle eq_refl)
              ("⏳ Downloading: video" ++ nl ++ "⏱ Duration: 0 minutes")
              files_sample "Sample.mp4" (50 * 1024 * 1024) _ eq_refl first_mp4_sample _ eq_refl).
    + repeat split; reflexivity.
    + lia.
Defined.

(** * Further properties of the handler *)

#[local] Instance same_outside_preorder (d : string) : PreOrder (same_outside d).
Proof. split; unfold same_outside; [intros s | intros s1 s2 s3]; congruence. Qed.


Section FileSystem.

Variable lower : string -> string.
Variable env : Env.




(** X1: a text that the classifier rejects is answered with the rejection
    message and nothing else: no directory, no backend call, the file
    system untouched.  The reply is outside the [try], so its failure is
    the failure of the handler. *)
Theorem unsupported_is_rejected (url : string) (fs0 : gmap string (list File)) :
  is_supported_url lower (VStr url) = Ok false ->
  trace (run lower env url fs0).1 = [ EReplyText unsupported_text ] /\
  fs (run lower env url fs0).1 = fs0 /\
  (run lower env url fs0).2
  = match transport env reply_unsupported with
    | None => Ok tt
    | Some e => Raise e
    end.
Proof.
  intros H. rewrite (run_unsupported _ _ _ _ H).
  unfold bind, reply_text, transport_call, ret.
  destruct (transport env reply_unsupported); simpl; auto.
Qed.



End FileSystem.

(** ** Failures before the progress message *)

Section EarlyFailures.

Variable lower : string -> string.
Variable env : Env.

Lemma with_body_typing_fails url d s e :
  transport env action_typing = Some e ->
  with_body env url d s = (record (EChatAction "typing") s, Raise e).
Proof.
  intros H. unfold with_body, bind, reply_chat_action, transport_call.
  now rewrite H.
Qed.

Lemma with_body_text_fails url d info s e :
  transport env action_typing = None ->
  extract_info env url = Ok info ->
  processing_text info = Raise e ->
  with_body env url d s
  = (record (EExtractInfo url) (record (EChatAction "typing") s), Raise e).
Proof.
  intros Ht Hp Htext.
  unfold with_body, bind, reply_chat_action, transport_call, ydl_extract_info, ret, lift.
  now rewrite Ht, Hp, Htext.
Qed.

Lemma run_mkdtemp_fails url fs0 cls msg :
  is_supported_url lower (VStr url) = Ok true ->
  mkdtemp env = Raise (PyException cls msg) ->
  run lower env url fs0
  = on_Exception env (PyException cls msg) (assign_processing_msg None (initial fs0)).
Proof.
  intros Hs Hd. rewrite (run_supported _ _ _ _ Hs).
  unfold try_except, with_TemporaryDirectory. now rewrite Hd.
Qed.

(** X4: when the temporary directory cannot be created, the run ends with
    the generic failure message: the backend is not called, nothing is
    sent besides that message, and nothing is deleted. *)
Theorem no_temporary_directory (url : string) (fs0 : gmap string (list File))
        (cls msg : string) :
  is_supported_url lower (VStr url) = Ok true ->
  mkdtemp env = Raise (PyException cls msg) ->
  trace (run lower env url fs0).1
  = [ ELogError ("Unexpected error: " ++ msg); EReplyText unexpected_text ] /\
  (transport env reply_unexpected = None ->
   run lower env url fs0
   = ({| fs := fs0; chat := [(0%nat, SText unexpected_text)]; next_id := 1;
         trace := [ ELogError ("Unexpected error: " ++ msg); EReplyText unexpected_text ];
         processing_msg := None |}, Ok tt)).
Proof.
  intros Hs Hd. rewrite (run_mkdtemp_fails _ _ _ _ Hs Hd). split.
  - rewrite on_Exception_trace. simpl.
    destruct (transport env reply_unexpected); reflexivity.
  - intros Hr.
    unfold on_Exception, if_processing_msg, try_pass, delete_message, log_error,
      reply_text, transport_call, bind, modify, gets, ret.
    rewrite Hr. reflexivity.
Qed.

(** X5: when the typing indicator cannot be sent, the request is given up
    before the backend is contacted: the directory is removed, the failure
    is logged and the generic message is sent. *)
Theorem typing_action_failure (url : string) (fs0 : gmap string (list File))
        (d cls msg : string) :
  is_supported_url lower (VStr url) = Ok true ->
  mkdtemp env = Ok d ->
  transport env action_typing = Some (PyException cls msg) ->
  trace (run lower env url fs0).1
  = [ EMkdtemp d; EChatAction "typing"; ERmtree d;
      ELogError ("Unexpected error: " ++ msg); EReplyText unexpected_text ].
Proof.
  intros Hs Hd Ht.
  pose proof (with_body_typing_fails url d (entered fs0 d) _ Ht) as Hbody.
  rewrite (run_Exception _ _ _ _ _ Hs Hd _ _ _ Hbody).
  rewrite on_Exception_trace. simpl.
  destruct (transport env reply_unexpected); reflexivity.
Qed.

(** X6: [dict.get] falls back to its default only for a missing key.  A
    probe answer that has "duration" with the value [None] makes the
    progress text raise a [TypeError]: the run ends with the generic
    failure message, and neither the progress message nor the download is
    attempted. *)
Theorem duration_none_is_fatal (url : string) (fs0 : gmap string (list File))
        (d : string) (info : gmap string PyVal) :
  probed lower env url d info ->
  info !! "duration" = Some VNone ->
  trace (run lower env url fs0).1
  = [ EMkdtemp d; EChatAction "typing"; EExtractInfo url; ERmtree d;
      ELogError "Unexpected error: unsupported operand type(s) for //: 'NoneType' and 'int'";
      EReplyText unexpected_text ].
Proof.
  intros (Hs & Hd & Ht & Hp) Hdur.
  assert (Htext : processing_text info
                  = Raise (PyException "TypeError"
                             "unsupported operand type(s) for //: 'NoneType' and 'int'")).
  { unfold processing_text, dict_get. rewrite Hdur. reflexivity. }
  pose proof (with_body_text_fails url d info (entered fs0 d) _ Ht Hp Htext) as Hbody.
  rewrite (run_Exception _ _ _ _ _ Hs Hd _ _ _ Hbody).
  rewrite on_Exception_trace. simpl.
  destruct (transport env reply_unexpected); reflexivity.
Qed.

(** X7: the duration is shown in whole minutes, rounded down: the number
    in the progress message is the [minutes] with
    [60 * minutes <= seconds < 60 * minutes + 60], so a video shorter than
    a minute is announced with 0 minutes. *)
Theorem duration_in_whole_minutes (url : string) (fs0 : gmap string (list File))
        (d : string) (info : gmap string PyVal) (title : string) (seconds : Z) :
  probed lower env url d info ->
  info !! "title" = Some (VStr title) ->
  info !! "duration" = Some (VInt seconds) ->
  exists minutes,
    60 * minutes <= seconds < 60 * minutes + 60 /\
    In (EReplyText ("⏳ Downloading: " ++ title ++ nl ++
                    "⏱ Duration: " ++ pretty minutes ++ " minutes"))
       (trace (run lower env url fs0).1).
Proof.
  intros Hprobed Htitle Hdur.
  exists (seconds `div` 60). split.
  - pose proof (Z.mul_div_le seconds 60 ltac:(lia)).
    pose proof (Z.mul_succ_div_gt seconds 60 ltac:(lia)). lia.
  - apply run_notify_attempted with (d := d) (info := info); [assumption|].
    unfold processing_text, dict_get. rewrite Htitle, Hdur. reflexivity.
Qed.

End EarlyFailures.

(** ** The order of the steps *)

Lemma mp4_or_not (files : list File) :
  no_mp4 files \/ exists name size, first_mp4 files name size.
Proof.
  induction files as [|[n z] files IH].
  - left. constructor.
  - destruct (endswith n ".mp4") eqn:E.
    + right. exists n, z, [], files. repeat split; [constructor | exact E].
    + destruct IH as [Hno | (name & size & before & after & -> & Hb & Hn)].
      * left. constructor; [exact E | exact Hno].
      * right. exists name, size, ((n, z) :: before), after.
        repeat split; [constructor; [exact E | exact Hb] | exact Hn].
Qed.

Section Order.

Variable lower : string -> string.
Variable env : Env.

Lemma aftermath_after_body d evh :
  Forall is_handler_event evh -> Forall is_aftermath_event (ERmtree d :: evh).
Proof.
  intros Fh. constructor; [exact I|].
  eapply Forall_impl; [exact Fh|]. apply is_handler_aftermath.
Qed.

(** Where the body of the [with] block stops, case by case. *)
Lemma run_reaches (url : string) (fs0 : gmap string (list File)) (d : string) :
  is_supported_url lower (VStr url) = Ok true ->
  mkdtemp env = Ok d ->
  exists pre evs,
    reached lower env url d pre /\
    trace (run lower env url fs0).1 = (pre ++ evs)%list /\
    Forall is_aftermath_event evs.
Proof.
  intros Hs Hd.
  destruct (run_trace lower env url fs0 d Hs Hd) as (evh & Htr & Fh).
  pose proof (aftermath_after_body d evh Fh) as Fa.
  destruct (transport env action_typing) as [e|] eqn:Ht.
  { rewrite (with_body_typing_fails env url d _ e Ht) in Htr.
    eexists _, _. split; [apply reached_typing|]. split; [exact Htr | exact Fa]. }
  destruct (extract_info env url) as [info|e] eqn:Hp.
  2:{ rewrite (with_body_probe_fails env url d _ e Ht Hp) in Htr.
      eexists _, _. split; [apply reached_probe|]. split; [exact Htr | exact Fa]. }
  destruct (processing_text info) as [text|e] eqn:Htext.
  2:{ rewrite (with_body_text_fails env url d info _ e Ht Hp Htext) in Htr.
      eexists _, _. split; [apply reached_probe|]. split; [exact Htr | exact Fa]. }
  destruct (transport env reply_processing) as [e|] eqn:Hn.
  { rewrite (with_body_notify_fails env url d info text _ e Ht Hp Htext Hn) in Htr.
    eexists _, _. split; [apply (reached_notify _ _ _ _ text)|].
    split; [exact Htr | exact Fa]. }
  assert (Hnotified : notified lower env url d info text) by (repeat split; assumption).
  destruct (download env url) as [files [[]|e]] eqn:Hdl.
  2:{ rewrite (with_body_fetch_fails lower env url d info text files e fs0 Hnotified Hdl)
        in Htr.
      eexists _, _. split; [apply (reached_download _ _ _ _ text)|].
      split; [exact Htr | exact Fa]. }
  assert (Hf : fetched lower env url d info text files) by (split; assumption).
  destruct (mp4_or_not files) as [Hno | (name & size & Hfirst)].
  { rewrite (with_body_fetched lower env url d info text files fs0 Hf) in Htr.
    rewrite (send_downloaded_no_mp4 env _ _ _ _ (after_download_listing _ _ _ _ _) Hno)
      in Htr.
    eexists _, _. split; [apply (reached_download _ _ _ _ text)|].
    split; [exact Htr | exact Fa]. }
  destruct (transport env action_upload) as [e|] eqn:Hup.
  - destruct (run_upload_fails_trace lower env url fs0 d info text files name size e
                Hf Hfirst Hup) as (evs & Hevs & Fev).
    eexists _, evs. split; [apply (reached_upload _ _ _ _ text)|].
    split; [exact Hevs | exact Fev].
  - destruct (run_delivery_trace lower env url fs0 d info text files name size
                Hf Hfirst Hup) as (evs & Hevs & Fev).
    eexists _, evs.
    split; [apply (reached_delivery _ _ _ _ info text files name size Hf Hfirst Hup)|].
    split; [exact Hevs | exact Fev].
Qed.

Lemma run_no_directory_trace url fs0 e :
  is_supported_url lower (VStr url) = Ok true ->
  mkdtemp env = Raise e ->
  Forall is_handler_event (trace (run lower env url fs0).1).
Proof.
  intros Hs Hd. rewrite (run_supported _ _ _ _ Hs).
  destruct (handlers_events env (with_TemporaryDirectory env (with_body env url))
              (assign_processing_msg None (initial fs0))) as (evh & -> & Fh).
  unfold with_TemporaryDirectory. rewrite Hd. exact Fh.
Qed.

(** X8: the calls of every run follow one fixed order, each step taken at
    most once and none retried: directory, typing indicator, probe,
    progress message, download, upload indicator, delivery.  Wherever the
    run stops, and also when it never enters the directory, only
    deletions, log entries, text replies and the removal of the directory
    follow. *)
Theorem steps_in_order (url : string) (fs0 : gmap string (list File)) :
  exists pre evs,
    (pre = [] \/ exists d, mkdtemp env = Ok d /\ reached lower env url d pre) /\
    trace (run lower env url fs0).1 = (pre ++ evs)%list /\
    Forall is_aftermath_event evs.
Proof.
  destruct (is_supported_url_correct lower (VStr url)) as [b [Hb _]].
  destruct b.
  - destruct (mkdtemp env) as [d|e] eqn:Hd.
    + destruct (run_reaches url fs0 d Hb Hd) as (pre & evs & Hpre & Htr & Fev).
      exists pre, evs. split; [right; exists d; auto | auto].
    + exists [], (trace (run lower env url fs0).1).
      split; [left; reflexivity|]. split; [reflexivity|].
      eapply Forall_impl; [exact (run_no_directory_trace url fs0 e Hb Hd)|].
      apply is_handler_aftermath.
  - exists [], (trace (run lower env url fs0).1).
    split; [left; reflexivity|]. split; [reflexivity|].
    rewrite (run_unsupported _ _ _ _ Hb).
    unfold bind, reply_text, transport_call, ret.
    destruct (transport env reply_unsupported); repeat constructor.
Qed.

(** X9: a file is handed to the chat only when the link was supported,
    the probe answered, the progress message was sent, the download
    returned, and the upload indicator went through; the file is then the
    first ".mp4" entry of the temporary directory. *)
Theorem delivery_only_after_download (url : string) (fs0 : gmap string (list File))
        (ev : Event) :
  In ev (trace (run lower env url fs0).1) ->
  is_delivery ev ->
  exists d info text files name size,
    fetched lower env url d info text files /\
    first_mp4 files name size /\
    transport env action_upload = None /\
    ev = delivery_call info d name size.
Proof.
  intros Hin Hdel.
  destruct (is_supported_url_correct lower (VStr url)) as [b [Hb _]].
  destruct b.
  2:{ rewrite (run_unsupported _ _ _ _ Hb) in Hin.
      unfold bind, reply_text, transport_call, ret in Hin.
      destruct (transport env reply_unsupported); simpl in Hin;
        destruct Hin as [<-|[]]; destruct Hdel. }
  destruct (mkdtemp env) as [d|e] eqn:Hd.
  2:{ pose proof (run_no_directory_trace url fs0 e Hb Hd) as Fh.
      rewrite List.Forall_forall in Fh. specialize (Fh _ Hin).
      destruct ev; simpl in *; contradiction. }
  destruct (run_reaches url fs0 d Hb Hd) as (pre & evs & Hpre & Htr & Fev).
  rewrite Htr in Hin. apply in_app_or in Hin as [Hin|Hin].
  2:{ rewrite List.Forall_forall in Fev.
      destruct (aftermath_not_delivery _ (Fev _ Hin) Hdel). }
  destruct Hpre as [ | | text | text | text | info text files name size Hf Hfirst Hup];
    simpl in Hin;
    repeat (destruct Hin as [<-|Hin]; [try solve [destruct Hdel]|]);
    try solve [destruct Hin].
  exists d, info, text, files, name, size. auto.
Qed.

End Order.

(** ** What escapes the handler *)

Section RaisesOnly.

Context (env : Env) (P : exn -> Prop).







Lemma raises_try_pass (m : M unit) : raises_only P (try_pass m).
Proof.
  intros s e. unfold try_pass. destruct (m s) as [s' [a|e']]; discriminate.
Qed.





End RaisesOnly.

Section Escapes.

Variable lower : string -> string.
Variable env : Env.








Lemma on_Exception_result e s :
  (on_Exception env e s).2
  = match transport env reply_unexpected with
    | None => Ok tt
    | Some e' => Raise e'
    end.
Proof.
  unfold on_Exception, if_processing_msg, try_pass, delete_message, log_error,
    reply_text, transport_call, bind, modify, gets, ret.
  destruct (transport env reply_unexpected); [reflexivity|]. simpl.
  destruct (processing_msg s); [|reflexivity].
  destruct (transport env delete_in_handler); reflexivity.
Qed.


End Escapes.

(** ** From the upload to the end *)

Section Upload.

Variable lower : string -> string.
Variable env : Env.

Lemma run_returns url fs0 d s2 :
  is_supported_url lower (VStr url) = Ok true ->
  mkdtemp env = Ok d ->
  with_body env url d (entered fs0 d) = (s2, Ok tt) ->
  run lower env url fs0 = (leave d s2, Ok tt).
Proof.
  intros Hs Hd H. rewrite (run_supported _ _ _ _ Hs).
  unfold try_except. rewrite (with_TemporaryDirectory_Ok _ _ _ _ Hd).
  fold (entered fs0 d). now rewrite H.
Qed.

(** The body of the [with] block from the upload indicator on. *)
Lemma with_body_upload url fs0 d info text files name size :
  fetched lower env url d info text files ->
  first_mp4 files name size ->
  transport env action_upload = None ->
  with_body env url d (entered fs0 d)
  = bind (if size <? size_limit
          then reply_video env (path_join d name) (video_caption info)
          else reply_document env (path_join d name) document_caption)
      (fun _ => if_processing_msg (delete_message env delete_processing))
      (record (EChatAction "upload_video") (after_download fs0 d url text files)).
Proof.
  intros Hf Hfirst Hup.
  rewrite (with_body_fetched lower env url d info text files fs0 Hf).
  exact (send_downloaded_first_mp4 env _ _ _ _ _ _
           (after_download_listing _ _ _ _ _) Hfirst Hup).
Qed.

Lemma with_body_send_fails url fs0 d info text files name size e :
  fetched lower env url d info text files ->
  first_mp4 files name size ->
  transport env action_upload = None ->
  transport env (send_site size) = Some e ->
  with_body env url d (entered fs0 d)
  = (record (delivery_call info d name size)
       (record (EChatAction "upload_video") (after_download fs0 d url text files)),
     Raise e).
Proof.
  intros Hf Hfirst Hup Hsend.
  rewrite (with_body_upload url fs0 d info text files name size Hf Hfirst Hup).
  unfold send_site, delivery_call in *.
  destruct (size <? size_limit);
    unfold bind, reply_video, reply_document, transport_call; now rewrite Hsend.
Qed.

Lemma with_body_sent url fs0 d info text files name size :
  fetched lower env url d info text files ->
  first_mp4 files name size ->
  transport env action_upload = None ->
  transport env (send_site size) = None ->
  with_body env url d (entered fs0 d)
  = delete_message env delete_processing 0%nat
      (post (delivered info d name size)
         (record (delivery_call info d name size)
            (record (EChatAction "upload_video") (after_download fs0 d url text files)))).
Proof.
  intros Hf Hfirst Hup Hsend.
  rewrite (with_body_upload url fs0 d info text files name size Hf Hfirst Hup).
  unfold send_site, delivery_call, delivered in *.
  destruct (size <? size_limit);
    unfold bind, reply_video, reply_document, transport_call, modify,
      if_processing_msg, gets; now rewrite Hsend.
Qed.

(** X11: a run in which every step goes through returns normally and
    leaves in the chat the delivered file and nothing else: the progress
    message is deleted after the file is sent and before the directory is
    removed. *)
Theorem successful_run (url : string) (fs0 : gmap string (list File)) (d : string)
        (info : gmap string PyVal) (text : string) (files : list File)
        (name : string) (size : Z) :
  fetched lower env url d info text files ->
  first_mp4 files name size ->
  transport env action_upload = None ->
  transport env (send_site size) = None ->
  transport env delete_processing = None ->
  (run lower env url fs0).2 = Ok tt /\
  trace (run lower env url fs0).1
  = [ EMkdtemp d; EChatAction "typing"; EExtractInfo url; EReplyText text;
      EDownload url; EChatAction "upload_video"; delivery_call info d name size;
      EDelete 0; ERmtree d ] /\
  chat (run lower env url fs0).1 = [ (1%nat, delivered info d name size) ].
Proof.
  intros Hf Hfirst Hup Hsend Hdel.
  pose proof Hf as [[(Hs & Hd & _) _] _].
  pose proof (with_body_sent url fs0 d info text files name size Hf Hfirst Hup Hsend)
    as Hbody.
  unfold delete_message, transport_call, modify in Hbody. rewrite Hdel in Hbody.
  rewrite (run_returns url fs0 d _ Hs Hd Hbody).
  repeat split.
Qed.

(** X12: when sending the file fails with an [Exception], a timeout for
    one, the run takes the generic failure path: the directory is removed,
    the failure is logged, the "try again later" message is sent, and then
    the progress message is deleted; no file is in the chat. *)
Theorem send_failure (url : string) (fs0 : gmap string (list File)) (d : string)
        (info : gmap string PyVal) (text : string) (files : list File)
        (name : string) (size : Z) (cls msg : string) :
  fetched lower env url d info text files ->
  first_mp4 files name size ->
  transport env action_upload = None ->
  transport env (send_site size) = Some (PyException cls msg) ->
  trace (run lower env url fs0).1
  = ([ EMkdtemp d; EChatAction "typing"; EExtractInfo url; EReplyText text;
       EDownload url; EChatAction "upload_video"; delivery_call info d name size;
       ERmtree d; ELogError ("Unexpected error: " ++ msg); EReplyText unexpected_text ]
     ++ match transport env reply_unexpected with
        | None => [EDelete 0]
        | Some _ => []
        end)%list /\
  (transport env reply_unexpected = None ->
   transport env delete_in_handler = None ->
   chat (run lower env url fs0).1 = [ (1%nat, SText unexpected_text) ]).
Proof.
  intros Hf Hfirst Hup Hsend.
  pose proof Hf as [[(Hs & Hd & _) _] _].
  pose proof (with_body_send_fails url fs0 d info text files name size _
                Hf Hfirst Hup Hsend) as Hbody.
  rewrite (run_Exception _ _ _ _ _ Hs Hd _ _ _ Hbody). split.
  - rewrite on_Exception_trace. simpl.
    destruct (transport env reply_unexpected); reflexivity.
  - intros Hr Hdel.
    unfold on_Exception, if_processing_msg, try_pass, delete_message, log_error,
      reply_text, transport_call, bind, modify, gets, ret.
    rewrite Hr. simpl. rewrite Hdel. reflexivity.
Qed.

(** X13: the deletion of the progress message after a delivery is not
    guarded.  When it fails with an [Exception], the file has been
    delivered and the user is sent the generic failure message on top of
    it; the [except] clause then tries the deletion once more. *)
Theorem delete_failure_after_delivery (url : string) (fs0 : gmap string (list File))
        (d : string) (info : gmap string PyVal) (text : string) (files : list File)
        (name : string) (size : Z) (cls msg : string) :
  fetched lower env url d info text files ->
  first_mp4 files name size ->
  transport env action_upload = None ->
  transport env (send_site size) = None ->
  transport env delete_processing = Some (PyException cls msg) ->
  trace (run lower env url fs0).1
  = ([ EMkdtemp d; EChatAction "typing"; EExtractInfo url; EReplyText text;
       EDownload url; EChatAction "upload_video"; delivery_call info d name size;
       EDelete 0; ERmtree d;
       ELogError ("Unexpected error: " ++ msg); EReplyText unexpected_text ]
     ++ match transport env reply_unexpected with
        | None => [EDelete 0]
        | Some _ => []
        end)%list /\
  In (1%nat, delivered info d name size) (chat (run lower env url fs0).1).
Proof.
  intros Hf Hfirst Hup Hsend Hdel.
  pose proof Hf as [[(Hs & Hd & _) _] _].
  pose proof (with_body_sent url fs0 d info text files name size Hf Hfirst Hup Hsend)
    as Hbody.
  unfold delete_message, transport_call, modify in Hbody. rewrite Hdel in Hbody.
  rewrite (run_Exception _ _ _ _ _ Hs Hd _ _ _ Hbody). split.
  - rewrite on_Exception_trace. simpl.
    destruct (transport env reply_unexpected); reflexivity.
  - unfold on_Exception, if_processing_msg, try_pass, delete_message, log_error,
      reply_text, transport_call, bind, modify, gets, ret.
    destruct (transport env reply_unexpected); simpl; [auto|].
    destruct (transport env delete_in_handler); simpl; auto.
Qed.

(** X14: in the [except Exception] clause the progress message is deleted
    only after the failure message was sent.  When that reply fails, its
    exception leaves the handler, no deletion is attempted, and the
    progress message stays in the chat. *)
Theorem failure_reply_fails (url : string) (fs0 : gmap string (list File)) (d : string)
        (info : gmap string PyVal) (text : string) (files : list File) (e : exn) :
  fetched lower env url d info text files ->
  no_mp4 files ->
  transport env reply_unexpected = Some e ->
  (run lower env url fs0).2 = Raise e /\
  (forall msg, ~ In (EDelete msg) (trace (run lower env url fs0).1)) /\
  chat (run lower env url fs0).1 = [ (0%nat, SText text) ].
Proof.
  intros Hf Hno Hr. split; [|split].
  - rewrite (run_no_mp4 _ _ _ _ _ _ _ _ Hf Hno), on_Exception_result. now rewrite Hr.
  - intros msg. rewrite (run_no_mp4_trace _ _ _ _ _ _ _ _ Hf Hno), Hr. simpl.
    intros H. repeat (destruct H as [H|H]; [discriminate H|]). exact H.
  - rewrite (run_no_mp4 _ _ _ _ _ _ _ _ Hf Hno).
    unfold on_Exception, if_processing_msg, try_pass, delete_message, log_error,
      reply_text, transport_call, bind, modify, gets, ret.
    rewrite Hr. reflexivity.
Qed.

End Upload.

(** ** The classifier on texts in any case *)



(** ** The further properties at concrete runs *)

Lemma fetched_fault (site : Site) (e : exn) (files : list File) :
  transport (env_fault site e info_sample files) action_typing = None ->
  transport (env_fault site e info_sample files) reply_processing = None ->
  fetched ascii_lower (env_fault site e info_sample files) url_sample tmp_sample
    info_sample text_sample files.
Proof. intros Ht Hn. repeat split; try assumption; vm_compute; reflexivity. Qed.

Lemma unsupported_is_rejected_witness :
  trace (run ascii_lower (env_ok info_sample files_sample) "not a url" ∅).1
  = [ EReplyText unsupported_text ] /\
  (run ascii_lower (env_ok info_sample files_sample) "not a url" ∅).2 = Ok tt.
Proof.
  destruct (unsupported_is_rejected ascii_lower (env_ok info_sample files_sample)
              "not a url" ∅ eq_refl) as (Htr & _ & Hres).
  split; [exact Htr | exact Hres].
Defined.


Lemma no_temporary_directory_witness :
  trace (run ascii_lower env_no_tmp url_sample ∅).1
  = [ ELogError ("Unexpected error: " ++ "No space left on device");
      EReplyText unexpected_text ].
Proof.
  exact (proj1 (no_temporary_directory ascii_lower env_no_tmp url_sample ∅
                  "OSError" "No space left on device" eq_refl eq_refl)).
Defined.

Lemma typing_action_failure_witness :
  trace (run ascii_lower (env_fault action_typing timed_out info_sample files_sample)
           url_sample ∅).1
  = [ EMkdtemp tmp_sample; EChatAction "typing"; ERmtree tmp_sample;
      ELogError ("Unexpected error: " ++ "Timed out"); EReplyText unexpected_text ].
Proof.
  exact (typing_action_failure ascii_lower
           (env_fault action_typing timed_out info_sample files_sample) url_sample ∅
           tmp_sample "TimedOut" "Timed out" eq_refl eq_refl eq_refl).
Defined.

Lemma duration_none_is_fatal_witness :
  probed ascii_lower (env_ok info_live files_sample) url_sample tmp_sample info_live /\
  ~ In (EDownload url_sample)
      (trace (run ascii_lower (env_ok info_live files_sample) url_sample ∅).1).
Proof.
  assert (Hp : probed ascii_lower (env_ok info_live files_sample) url_sample
                 tmp_sample info_live) by (repeat split; reflexivity).
  split; [exact Hp|].
  rewrite (duration_none_is_fatal ascii_lower (env_ok info_live files_sample)
             url_sample ∅ tmp_sample info_live Hp eq_refl).
  simpl. intros H. repeat (destruct H as [H|H]; [discriminate H|]). exact H.
Defined.

Lemma duration_in_whole_minutes_witness :
  exists minutes,
    60 * minutes <= 59 < 60 * minutes + 60 /\
    In (EReplyText ("⏳ Downloading: " ++ "Clip" ++ nl ++
                    "⏱ Duration: " ++ pretty minutes ++ " minutes"))
       (trace (run ascii_lower (env_ok info_short files_sample) url_sample ∅).1).
Proof.
  refine (duration_in_whole_minutes ascii_lower (env_ok info_short files_sample)
            url_sample ∅ tmp_sample info_short "Clip" 59 _ eq_refl eq_refl).
  repeat split; reflexivity.
Defined.

Lemma delivery_only_after_download_witness :
  exists d info text files name size,
    fetched ascii_lower (env_ok info_sample files_sample) url_sample d info text files /\
    first_mp4 files name size /\
    transport (env_ok info_sample files_sample) action_upload = None /\
    EReplyVideo "/tmp/tmpk3x9/Sample.mp4" "✅ Sample" true (Some 60) (Some 60)
    = delivery_call info d name size.
Proof.
  refine (delivery_only_after_download ascii_lower (env_ok info_sample files_sample)
            url_sample ∅
            (EReplyVideo "/tmp/tmpk3x9/Sample.mp4" "✅ Sample" true (Some 60) (Some 60))
            _ I).
  vm_compute. auto 10.
Defined.



Lemma successful_run_witness :
  chat (run ascii_lower (env_ok info_sample files_sample) url_sample ∅).1
  = [ (1%nat, delivered info_sample tmp_sample "Sample.mp4" (50 * 1024 * 1024)) ].
Proof.
  exact (proj2 (proj2 (successful_run ascii_lower (env_ok info_sample files_sample)
                         url_sample ∅ tmp_sample info_sample text_sample files_sample
                         "Sample.mp4" (50 * 1024 * 1024)
                         (fetched_sample files_sample) first_mp4_sample
                         eq_refl eq_refl eq_refl))).
Defined.

Lemma send_failure_witness :
  chat (run ascii_lower (env_fault send_video timed_out info_sample files_sample)
          url_sample ∅).1
  = [ (1%nat, SText unexpected_text) ].
Proof.
  exact (proj2 (send_failure ascii_lower
                  (env_fault send_video timed_out info_sample files_sample)
                  url_sample ∅ tmp_sample info_sample text_sample files_sample
                  "Sample.mp4" (50 * 1024 * 1024) "TimedOut" "Timed out"
                  (fetched_fault send_video timed_out files_sample eq_refl eq_refl)
                  first_mp4_sample eq_refl eq_refl) eq_refl eq_refl).
Defined.

Lemma delete_failure_after_delivery_witness :
  In (1%nat, delivered info_sample tmp_sample "Sample.mp4" (50 * 1024 * 1024))
     (chat (run ascii_lower
              (env_fault delete_processing timed_out info_sample files_sample)
              url_sample ∅).1).
Proof.
  exact (proj2 (delete_failure_after_delivery ascii_lower
                  (env_fault delete_processing timed_out info_sample files_sample)
                  url_sample ∅ tmp_sample info_sample text_sample files_sample
                  "Sample.mp4" (50 * 1024 * 1024) "TimedOut" "Timed out"
                  (fetched_fault delete_processing timed_out files_sample eq_refl eq_refl)
                  first_mp4_sample eq_refl eq_refl eq_refl)).
Defined.

Lemma failure_reply_fails_witness :
  (run ascii_lower (env_fault reply_unexpected timed_out info_sample files_webm)
     url_sample ∅).2 = Raise timed_out /\
  chat (run ascii_lower (env_fault reply_unexpected timed_out info_sample files_webm)
          url_sample ∅).1 = [ (0%nat, SText text_sample) ].
Proof.
  assert (Hno : no_mp4 files_webm) by (repeat constructor).
  destruct (failure_reply_fails ascii_lower
              (env_fault reply_unexpected timed_out info_sample files_webm)
              url_sample ∅ tmp_sample info_sample text_sample files_webm timed_out
              (fetched_fault reply_unexpected timed_out files_webm eq_refl eq_refl)
              Hno eq_refl) as (Hres & _ & Hchat).
  split; [exact Hres | exact Hchat].
Defined.


Lemma download_error_never_deletes_witness :
  In (0%nat, SText text_sample) (chat (run ascii_lower env_fetch_fails url_sample ∅).1).
Proof.
  refine (proj2 (download_error_never_deletes ascii_lower env_fetch_fails url_sample ∅
                   tmp_sample info_sample text_sample
                   [("Sample.f137.mp4.part", 1024)]
                   "ERROR: unable to download video data" _ eq_refl)).
  repeat split; vm_compute; reflexivity.
Defined.

(** ** Other failures of the backend *)

Section BackendFailures.

Variable lower : string -> string.
Variable env : Env.

(** X16: a probe failure that is not a [DownloadError] is reported with
    the generic message, not with the "private or age-restricted" one;
    the download is not attempted and the directory is removed. *)
Theorem probe_other_failure (url : string) (fs0 : gmap string (list File))
        (d cls msg : string) :
  is_supported_url lower (VStr url) = Ok true ->
  mkdtemp env = Ok d ->
  transport env action_typing = None ->
  extract_info env url = Raise (PyException cls msg) ->
  trace (run lower env url fs0).1
  = [ EMkdtemp d; EChatAction "typing"; EExtractInfo url; ERmtree d;
      ELogError ("Unexpected error: " ++ msg); EReplyText unexpected_text ].
Proof.
  intros Hs Hd Ht Hp.
  pose proof (with_body_probe_fails env url d (entered fs0 d) _ Ht Hp) as Hbody.
  rewrite (run_Exception _ _ _ _ _ Hs Hd _ _ _ Hbody).
  rewrite on_Exception_trace. simpl.
  destruct (transport env reply_unexpected); reflexivity.
Qed.

(** X17: a [BaseException] that is not an [Exception], a cancellation for
    one, raised by the download is caught by neither [except] clause: the
    directory is removed, nothing is logged, no message is sent or
    deleted, and the exception leaves the handler. *)
Theorem cancelled_download (url : string) (fs0 : gmap string (list File))
        (d : string) (info : gmap string PyVal) (text : string) (files : list File)
        (cls msg : string) :
  notified lower env url d info text ->
  download env url = (files, Raise (PyBaseException cls msg)) ->
  (run lower env url fs0).2 = Raise (PyBaseException cls msg) /\
  trace (run lower env url fs0).1
  = [ EMkdtemp d; EChatAction "typing"; EExtractInfo url; EReplyText text;
      EDownload url; ERmtree d ] /\
  chat (run lower env url fs0).1 = [ (0%nat, SText text) ].
Proof.
  intros Hn Hdl.
  pose proof Hn as [(Hs & Hd & _) _].
  pose proof (with_body_fetch_fails lower env url d info text files _ fs0 Hn Hdl) as Hbody.
  rewrite (run_supported _ _ _ _ Hs). unfold try_except.
  rewrite (with_TemporaryDirectory_Ok _ _ _ _ Hd). fold (entered fs0 d).
  rewrite Hbody. repeat split.
Qed.

End BackendFailures.

Lemma probe_other_failure_witness :
  trace (run ascii_lower env_backend_broken url_sample ∅).1
  = [ EMkdtemp tmp_sample; EChatAction "typing"; EExtractInfo url_sample;
      ERmtree tmp_sample; ELogError ("Unexpected error: " ++ "Expecting value");
      EReplyText unexpected_text ].
Proof.
  exact (probe_other_failure ascii_lower env_backend_broken url_sample ∅ tmp_sample
           "JSONDecodeError" "Expecting value" eq_refl eq_refl eq_refl eq_refl).
Defined.

Lemma cancelled_download_witness :
  (run ascii_lower env_cancelled url_sample ∅).2
  = Raise (PyBaseException "CancelledError" "Cancelled") /\
  chat (run ascii_lower env_cancelled url_sample ∅).1 = [ (0%nat, SText text_sample) ].
Proof.
  assert (Hn : notified ascii_lower env_cancelled url_sample tmp_sample
                 info_sample text_sample)
    by (repeat split; vm_compute; reflexivity).
  destruct (cancelled_download ascii_lower env_cancelled url_sample ∅ tmp_sample
              info_sample text_sample [("Sample.f137.mp4.part", 1024)]
              "CancelledError" "Cancelled" Hn eq_refl) as (Hres & _ & Hchat).
  split; [exact Hres | exact Hchat].
Defined.
